(** * earwigbot.wiki.copyvios.search: the search-engine back ends

    A shallow embedding of [earwigbot/wiki/copyvios/search.py] (Python 2)
    and the properties of its two engines, [BingSearchEngine] and
    [YahooBOSSSearchEngine].

    Python [str] objects are byte strings and are modelled by [string]
    (a list of 8-bit [ascii]); [unicode] objects are lists of code points.
    A query is a [unicode] object, as the callers of [search] pass it;
    credentials are [str].
    The library functions the module imports ([urllib.quote],
    [urllib.urlencode], the [base64] codec, [json.loads]) are modelled in
    [Module Py] from their Python 2.7 definitions. What the module cannot
    compute by itself is a parameter: gzip inflation, the iteration order
    of a dict and the oauth2 request signer are fields of the [Runtime]
    record, and the network is the [open] method of the injected opener,
    an object of the heap that engines share by reference. *)

From Stdlib Require Import ZArith NArith Ascii String DecimalString List Bool Lia Permutation.
From stdpp Require Import gmap strings.

Set Warnings "-register-all".

Import ListNotations.
Local Open Scope list_scope.

(** ** Python 2 library functions used by the module *)

Module Py.

(** [unicode]: a sequence of code points. *)
Definition unicode := list N.

(** [c in s] for a one-byte [c]. *)
Fixpoint contains_char (c : ascii) (s : string) : bool :=
  match s with
  | EmptyString => false
  | String d s' => if Ascii.eqb c d then true else contains_char c s'
  end.

(** [s.replace(c, new)] for a one-byte pattern [c]. *)
Fixpoint replace (c : ascii) (new : string) (s : string) : string :=
  match s with
  | EmptyString => EmptyString
  | String d s' =>
      if Ascii.eqb d c then new +:+ replace c new s'
      else String d (replace c new s')
  end.

(** [u.replace(c, new)] on [unicode], for a one-character pattern. *)
Fixpoint ureplace (c : N) (new : unicode) (u : unicode) : unicode :=
  match u with
  | [] => []
  | d :: u' =>
      if N.eqb d c then new ++ ureplace c new u'
      else d :: ureplace c new u'
  end.

(** [sep.join(l)] is [String.concat sep l]. *)
Definition join (sep : string) (l : list string) : string :=
  String.concat sep l.

(** [unicode(s)] for an ASCII literal of the source. *)
Fixpoint u (s : string) : unicode :=
  match s with
  | EmptyString => []
  | String c s' => N_of_ascii c :: u s'
  end.
Arguments u : simpl never.

(** *** [str(n)] and ["{0}".format(n)] for an [int]: its decimal text *)

Definition str_int (z : Z) : string := NilZero.string_of_int (Z.to_int z).

(** *** [u.encode("utf8")] *)

Definition byte (n : N) : ascii := ascii_of_N (n mod 256).

Definition utf8_char (c : N) : string :=
  if N.ltb c 128 then
    String (byte c) EmptyString
  else if N.ltb c 2048 then
    String (byte (N.lor 192 (N.shiftr c 6)))
      (String (byte (N.lor 128 (N.land c 63))) EmptyString)
  else if N.ltb c 65536 then
    String (byte (N.lor 224 (N.shiftr c 12)))
      (String (byte (N.lor 128 (N.land (N.shiftr c 6) 63)))
         (String (byte (N.lor 128 (N.land c 63))) EmptyString))
  else
    String (byte (N.lor 240 (N.shiftr c 18)))
      (String (byte (N.lor 128 (N.land (N.shiftr c 12) 63)))
         (String (byte (N.lor 128 (N.land (N.shiftr c 6) 63)))
            (String (byte (N.lor 128 (N.land c 63))) EmptyString))).

Fixpoint encode_utf8 (s : unicode) : string :=
  match s with
  | [] => EmptyString
  | c :: s' => utf8_char c +:+ encode_utf8 s'
  end.

(** *** [urllib.quote], [urllib.quote_plus], [urllib.urlencode] *)

Definition always_safe : string :=
  "ABCDEFGHIJKLMNOPQRSTUVWXYZabcdefghijklmnopqrstuvwxyz0123456789_.-".

Definition hex_digit (d : N) : ascii :=
  if N.ltb d 10 then ascii_of_N (48 + d) else ascii_of_N (55 + d).

(** ['%{:02X}'.format(i)] *)
Definition percent (c : ascii) : string :=
  let i := N_of_ascii c in
  String "%" (String (hex_digit (i / 16)) (String (hex_digit (i mod 16)) EmptyString)).

(** The entry of [_safe_map], updated with [safe], for the byte [c]. *)
Definition quoter (safe : string) (c : ascii) : string :=
  if contains_char c safe then String c EmptyString
  else if (N.ltb (N_of_ascii c) 128 && contains_char c always_safe)%bool
       then String c EmptyString
       else percent c.

(** [''.join(map(quoter, s))]; the fast paths of [quote] return the same
    string. *)
Fixpoint quote (s : string) (safe : string) : string :=
  match s with
  | EmptyString => EmptyString
  | String c s' => quoter safe c +:+ quote s' safe
  end.

Definition quote_plus (s : string) : string :=
  if contains_char " " s then replace " " "+" (quote s " ")
  else quote s "".

(** [urlencode(query)] on the item list of a mapping of [str] to [str]. *)
Definition urlencode (items : list (string * string)) : string :=
  join "&" (map (fun kv => quote_plus (fst kv) +:+ "=" +:+ quote_plus (snd kv)) items).

(** *** The [base64] codec: [s.encode("base64")]

    [binascii.b2a_base64] encodes its argument in the standard alphabet,
    pads with [=] and ends the line; [base64.encodestring] applies it to
    successive slices of [MAXBINSIZE = 57] bytes. *)

Definition b64_table : string :=
  "ABCDEFGHIJKLMNOPQRSTUVWXYZabcdefghijklmnopqrstuvwxyz0123456789+/".

Definition b64_char (n : N) : ascii :=
  match String.get (N.to_nat n) b64_table with
  | Some c => c
  | None => "="%char
  end.

Definition newline : ascii := "010"%char.

Fixpoint b64 (s : string) : string :=
  match s with
  | EmptyString => EmptyString
  | String a EmptyString =>
      let x := N_of_ascii a in
      String (b64_char (x / 4))
        (String (b64_char ((x mod 4) * 16)) "==")
  | String a (String b EmptyString) =>
      let x := N_of_ascii a in
      let y := N_of_ascii b in
      String (b64_char (x / 4))
        (String (b64_char ((x mod 4) * 16 + y / 16))
           (String (b64_char ((y mod 16) * 4)) "="))
  | String a (String b (String c rest)) =>
      let x := N_of_ascii a in
      let y := N_of_ascii b in
      let z := N_of_ascii c in
      String (b64_char (x / 4))
        (String (b64_char ((x mod 4) * 16 + y / 16))
           (String (b64_char ((y mod 16) * 4 + z / 64))
              (String (b64_char (z mod 64)) (b64 rest))))
  end.

Definition b2a_base64 (s : string) : string :=
  b64 s +:+ String newline EmptyString.

(** [s[:n]] and [s[n:]] *)
Fixpoint take (n : nat) (s : string) : string :=
  match n, s with
  | S n', String c s' => String c (take n' s')
  | _, _ => EmptyString
  end.

Fixpoint drop (n : nat) (s : string) : string :=
  match n, s with
  | S n', String _ s' => drop n' s'
  | _, _ => s
  end.

Definition MAXBINSIZE : nat := 57.

(** The loop [for i in range(0, len(s), MAXBINSIZE)] of
    [base64.encodestring]: [fuel] bounds the number of slices. *)
Fixpoint encodestring_loop (fuel : nat) (s : string) : string :=
  match fuel with
  | O => EmptyString
  | S fuel' =>
      match s with
      | EmptyString => EmptyString
      | _ => b2a_base64 (take MAXBINSIZE s) +:+ encodestring_loop fuel' (drop MAXBINSIZE s)
      end
  end.

Definition encode_base64 (s : string) : string :=
  encodestring_loop (String.length s) s.

(** *** [json.loads]

    The values [json.loads] builds: [None], [bool], [int]/[long], [float]
    (kept as its literal: no operation of the module inspects it),
    [unicode], [list] and [dict]. *)

Inductive json : Type :=
| JNone
| JBool (b : bool)
| JInt (z : Z)
| JFloat (literal : string)
| JUnicode (s : unicode)
| JList (l : list json)
| JDict (d : gmap unicode json).

(** The outcome of a scanner: a value and the unread input, a
    [ValueError], or recursion budget exhausted. *)
Inductive scan (A : Type) : Type :=
| Scanned (a : A) (rest : string)
| Invalid
| Exhausted.
Arguments Scanned {A} a rest.
Arguments Invalid {A}.
Arguments Exhausted {A}.

Definition scan_map {A B} (f : A -> B) (r : scan A) : scan B :=
  match r with
  | Scanned a rest => Scanned (f a) rest
  | Invalid => Invalid
  | Exhausted => Exhausted
  end.

Definition dquote : ascii := "034"%char.
Definition backslash : ascii := "092"%char.

(** [WHITESPACE]: any run of space, tab, line feed and carriage return. *)
Definition is_ws (c : ascii) : bool :=
  (Ascii.eqb c " " || Ascii.eqb c "009" || Ascii.eqb c "010" || Ascii.eqb c "013")%bool.

Fixpoint skip_ws (s : string) : string :=
  match s with
  | String c s' => if is_ws c then skip_ws s' else s
  | EmptyString => s
  end.

Fixpoint strip_prefix (p s : string) : option string :=
  match p, s with
  | EmptyString, _ => Some s
  | String a p', String b s' => if Ascii.eqb a b then strip_prefix p' s' else None
  | String _ _, EmptyString => None
  end.

Definition is_digit (c : ascii) : bool :=
  (N.leb 48 (N_of_ascii c) && N.leb (N_of_ascii c) 57)%bool.

Fixpoint span_digits (s : string) : string * string :=
  match s with
  | String c s' =>
      if is_digit c then
        let (d, r) := span_digits s' in (String c d, r)
      else (EmptyString, s)
  | EmptyString => (EmptyString, EmptyString)
  end.

Fixpoint int_of_digits (acc : Z) (d : string) : Z :=
  match d with
  | EmptyString => acc
  | String c d' => int_of_digits (10 * acc + (Z.of_N (N_of_ascii c) - 48))%Z d'
  end.

(** [NUMBER_RE]: an optional minus sign and either [0] or a non-zero digit
    followed by digits; then, optionally, a dot and one digit or more; then,
    optionally, [e] or [E], an optional sign and one digit or more. *)
Definition match_integer (s : string) : option (string * string) :=
  let '(sign, s1) :=
    match s with
    | String c r => if Ascii.eqb c "-" then ("-", r) else (EmptyString, s)
    | EmptyString => (EmptyString, s)
    end in
  match s1 with
  | String c r =>
      if Ascii.eqb c "0" then Some (sign +:+ "0", r)
      else if is_digit c then
        let (d, r') := span_digits r in Some (sign +:+ String c d, r')
      else None
  | EmptyString => None
  end.

Definition match_frac (s : string) : string * string :=
  match s with
  | String c r =>
      if Ascii.eqb c "." then
        match span_digits r with
        | (EmptyString, _) => (EmptyString, s)
        | (d, r') => (String c d, r')
        end
      else (EmptyString, s)
  | EmptyString => (EmptyString, s)
  end.

Definition match_exp (s : string) : string * string :=
  match s with
  | String c r =>
      if (Ascii.eqb c "e" || Ascii.eqb c "E")%bool then
        let '(sign, r1) :=
          match r with
          | String g r0 =>
              if (Ascii.eqb g "-" || Ascii.eqb g "+")%bool
              then (String g EmptyString, r0) else (EmptyString, r)
          | EmptyString => (EmptyString, r)
          end in
        match span_digits r1 with
        | (EmptyString, _) => (EmptyString, s)
        | (d, r') => (String c (sign +:+ d), r')
        end
      else (EmptyString, s)
  | EmptyString => (EmptyString, s)
  end.

Definition int_of_literal (lit : string) : Z :=
  match lit with
  | String c d => if Ascii.eqb c "-" then (- int_of_digits 0 d)%Z else int_of_digits 0 lit
  | EmptyString => 0%Z
  end.

Definition match_number (s : string) : option (json * string) :=
  match match_integer s with
  | None => None
  | Some (integer, r0) =>
      let (frac, r1) := match_frac r0 in
      let (exp, r2) := match_exp r1 in
      match frac, exp with
      | EmptyString, EmptyString => Some (JInt (int_of_literal integer), r2)
      | _, _ => Some (JFloat (integer +:+ frac +:+ exp), r2)
      end
  end.

(** [scanstring] with [strict=True] on a [str]: the characters up to the
    closing quote, escapes replaced, bytes above 127 decoded as UTF-8.
    The scanner reads one byte at a time; its state says what it is in
    the middle of. [hi] records that the code point just read is a
    high surrogate written as an escape, which a following escaped low
    surrogate completes to one code point. *)
Inductive sstate : Type :=
| SChars (hi : bool)
| SEscape (hi : bool)
| SHex (k : nat) (v : N) (hi : bool)
| SUtf8 (k : nat) (v : N) (lo up : N).

Definition hex_val (c : ascii) : option N :=
  let n := N_of_ascii c in
  if (N.leb 48 n && N.leb n 57)%bool then Some (n - 48)%N
  else if (N.leb 65 n && N.leb n 70)%bool then Some (n - 55)%N
  else if (N.leb 97 n && N.leb n 102)%bool then Some (n - 87)%N
  else None.

(** The [BACKSLASH] table of [json.decoder]. *)
Definition BACKSLASH (c : ascii) : option N :=
  if Ascii.eqb c dquote then Some 34%N
  else if Ascii.eqb c backslash then Some 92%N
  else if Ascii.eqb c "/" then Some 47%N
  else if Ascii.eqb c "b" then Some 8%N
  else if Ascii.eqb c "f" then Some 12%N
  else if Ascii.eqb c "n" then Some 10%N
  else if Ascii.eqb c "r" then Some 13%N
  else if Ascii.eqb c "t" then Some 9%N
  else None.

Definition is_high_surrogate (v : N) : bool := (N.leb 55296 v && N.leb v 56319)%bool.
Definition is_low_surrogate (v : N) : bool := (N.leb 56320 v && N.leb v 57343)%bool.

(** The state for the bytes that follow the lead byte [n] of a UTF-8
    sequence, [None] when [n] cannot start one. *)
Definition utf8_lead (n : N) : option sstate :=
  if (N.leb 194 n && N.leb n 223)%bool then Some (SUtf8 1 (n - 192) 128 191)
  else if N.eqb n 224 then Some (SUtf8 2 0 160 191)
  else if (N.leb 225 n && N.leb n 239)%bool then Some (SUtf8 2 (n - 224) 128 191)
  else if N.eqb n 240 then Some (SUtf8 3 0 144 191)
  else if (N.leb 241 n && N.leb n 243)%bool then Some (SUtf8 3 (n - 240) 128 191)
  else if N.eqb n 244 then Some (SUtf8 3 4 128 143)
  else None.

Fixpoint scanstring_loop (st : sstate) (acc : list N) (s : string) : scan unicode :=
  match s with
  | EmptyString => Invalid
  | String c s' =>
      let n := N_of_ascii c in
      match st with
      | SChars hi =>
          if Ascii.eqb c dquote then Scanned (rev acc) s'
          else if Ascii.eqb c backslash then scanstring_loop (SEscape hi) acc s'
          else if N.ltb n 32 then Invalid
          else if N.ltb n 128 then scanstring_loop (SChars false) (n :: acc) s'
          else match utf8_lead n with
               | Some st' => scanstring_loop st' acc s'
               | None => Invalid
               end
      | SEscape hi =>
          if Ascii.eqb c "u" then scanstring_loop (SHex 4 0 hi) acc s'
          else match BACKSLASH c with
               | Some v => scanstring_loop (SChars false) (v :: acc) s'
               | None => Invalid
               end
      | SHex k v hi =>
          match hex_val c with
          | None => Invalid
          | Some d =>
              let v' := (v * 16 + d)%N in
              match k with
              | 1%nat =>
                  match acc with
                  | h :: acc' =>
                      if (hi && is_low_surrogate v')%bool then
                        scanstring_loop (SChars false)
                          ((65536 + N.lor (N.shiftl (h - 55296) 10) (v' - 56320))%N :: acc') s'
                      else scanstring_loop (SChars (is_high_surrogate v')) (v' :: acc) s'
                  | [] => scanstring_loop (SChars (is_high_surrogate v')) (v' :: acc) s'
                  end
              | S k' => scanstring_loop (SHex k' v' hi) acc s'
              | O => Invalid
              end
          end
      | SUtf8 k v lo up =>
          if (N.leb lo n && N.leb n up)%bool then
            let v' := (v * 64 + (n - 128))%N in
            match k with
            | 1%nat => scanstring_loop (SChars false) (v' :: acc) s'
            | S k' => scanstring_loop (SUtf8 k' v' 128 191) acc s'
            | O => Invalid
            end
          else Invalid
      end
  end.

Definition scanstring (s : string) : scan unicode :=
  scanstring_loop (SChars false) [] s.

(** The literals [null], [true], [false], [NaN], [Infinity], [-Infinity]
    and the numbers, tried in the order of [scan_once]. *)
Definition scan_atom (s : string) : scan json :=
  match strip_prefix "null" s with
  | Some r => Scanned JNone r
  | None =>
  match strip_prefix "true" s with
  | Some r => Scanned (JBool true) r
  | None =>
  match strip_prefix "false" s with
  | Some r => Scanned (JBool false) r
  | None =>
  match match_number s with
  | Some (v, r) => Scanned v r
  | None =>
  match strip_prefix "NaN" s with
  | Some r => Scanned (JFloat "NaN") r
  | None =>
  match strip_prefix "Infinity" s with
  | Some r => Scanned (JFloat "Infinity") r
  | None =>
  match strip_prefix "-Infinity" s with
  | Some r => Scanned (JFloat "-Infinity") r
  | None => Invalid
  end end end end end end end.

(** [scan_once], [JSONObject] and [JSONArray]. [object_pairs] starts at
    the opening quote of a key with the pairs read so far ([dict(pairs)]
    keeps the last value of a repeated key); [array_values] starts at
    a value. Every call takes one unit of [fuel]. *)
Fixpoint scan_once (fuel : nat) (s : string) : scan json :=
  match fuel with
  | O => Exhausted
  | S fuel' =>
      match s with
      | EmptyString => Invalid
      | String c rest =>
          if Ascii.eqb c dquote then scan_map JUnicode (scanstring rest)
          else if Ascii.eqb c "{" then
            match skip_ws rest with
            | EmptyString => Invalid
            | String c1 r1 =>
                if Ascii.eqb c1 "}" then Scanned (JDict ∅) r1
                else object_pairs fuel' ∅ (String c1 r1)
            end
          else if Ascii.eqb c "[" then
            match skip_ws rest with
            | EmptyString => Invalid
            | String c1 r1 =>
                if Ascii.eqb c1 "]" then Scanned (JList []) r1
                else array_values fuel' [] (String c1 r1)
            end
          else scan_atom s
      end
  end
with object_pairs (fuel : nat) (d : gmap unicode json) (s : string) : scan json :=
  match fuel with
  | O => Exhausted
  | S fuel' =>
      match s with
      | EmptyString => Invalid
      | String c r =>
          if Ascii.eqb c dquote then
            match scanstring r with
            | Scanned key r1 =>
                match skip_ws r1 with
                | EmptyString => Invalid
                | String c2 r2 =>
                    if Ascii.eqb c2 ":" then
                      match scan_once fuel' (skip_ws r2) with
                      | Scanned v r3 =>
                          match skip_ws r3 with
                          | EmptyString => Invalid
                          | String c3 r4 =>
                              if Ascii.eqb c3 "}" then Scanned (JDict (<[key:=v]> d)) r4
                              else if Ascii.eqb c3 "," then
                                object_pairs fuel' (<[key:=v]> d) (skip_ws r4)
                              else Invalid
                          end
                      | Invalid => Invalid
                      | Exhausted => Exhausted
                      end
                    else Invalid
                end
            | Invalid => Invalid
            | Exhausted => Exhausted
            end
          else Invalid
      end
  end
with array_values (fuel : nat) (acc : list json) (s : string) : scan json :=
  match fuel with
  | O => Exhausted
  | S fuel' =>
      match scan_once fuel' s with
      | Scanned v r =>
          match skip_ws r with
          | EmptyString => Invalid
          | String c r1 =>
              if Ascii.eqb c "]" then Scanned (JList (rev (v :: acc))) r1
              else if Ascii.eqb c "," then array_values fuel' (v :: acc) (skip_ws r1)
              else Invalid
          end
      | Invalid => Invalid
      | Exhausted => Exhausted
      end
  end.

(** [json.loads(s)]: [Some] value, or [None] for [ValueError]. One value,
    surrounded by whitespace only. *)
Definition loads (s : string) : option json :=
  match scan_once (S (2 * String.length s)) (skip_ws s) with
  | Scanned v rest =>
      match skip_ws rest with
      | EmptyString => Some v
      | String _ _ => None
      end
  | Invalid => None
  | Exhausted => None
  end.

(** A literal of this file holds no double quote: [dq] turns each
    apostrophe of its argument into one. *)
Definition dq (s : string) : string :=
  replace "'" (String dquote EmptyString) s.

End Py.

(** ** Exceptions and outcomes *)

(** The exceptions that reach this module. [URLError] (which stands for
    its subclasses too) and [socket_error] carry [str(exc)]; [Other] is
    any class that no handler of the module names. *)
Inductive exception : Type :=
| SearchQueryError (msg : string)
| URLError (text : string)
| socket_error (text : string)
| KeyError (key : string)
| TypeError
| Other (cls : string) (text : string).

Inductive outcome (A : Type) : Type :=
| Return (a : A)
| Raise (e : exception).
Arguments Return {A} a.
Arguments Raise {A} e.

#[global] Instance outcome_ret : MRet outcome := @Return.

#[global] Instance outcome_bind : MBind outcome := fun A B k c =>
  match c with
  | Return a => k a
  | Raise e => Raise e
  end.

Fixpoint mapM {A B} (f : A -> outcome B) (l : list A) : outcome (list B) :=
  match l with
  | [] => Return []
  | x :: l' => y ← f x; ys ← mapM f l'; Return (y :: ys)
  end.

(** [d[key]] on a [dict] keyed by [str]. *)
Definition getitem_str (d : gmap string string) (key : string) : outcome string :=
  match d !! key with
  | Some v => Return v
  | None => Raise (KeyError key)
  end.

(** [v[key]] for a [str] key on a value of [json.loads]: only a [dict]
    can be indexed by a string. *)
Definition getitem (v : Py.json) (key : string) : outcome Py.json :=
  match v with
  | Py.JDict d =>
      match d !! Py.u key with
      | Some x => Return x
      | None => Raise (KeyError key)
      end
  | _ => Raise TypeError
  end.

(** The elements [for x in v] visits: the items of a [list], the keys of
    a [dict], the characters of a [unicode]; nothing else is iterable. *)
Definition iter (v : Py.json) : outcome (list Py.json) :=
  match v with
  | Py.JList l => Return l
  | Py.JDict d => Return (map (fun kv => Py.JUnicode (fst kv)) (map_to_list d))
  | Py.JUnicode s => Return (map (fun c => Py.JUnicode [c]) s)
  | _ => Raise TypeError
  end.

(** ** The transport and the runtime *)

(** The object [opener.open(url)] returns. *)
Record response : Type := {
  read : outcome string;
  headers_get : string -> option string;
  getcode : Z
}.

(** The injected opener: its default headers, and what [open] does for
    a URL when these are the default headers. *)
Record opener : Type := {
  addheaders : list (string * string);
  open : list (string * string) -> string -> outcome response
}.

#[global] Instance opener_inhabited : Inhabited opener :=
  populate {| addheaders := []; open := fun _ _ => Raise (Other "ReferenceError" "") |}.

(** Openers are shared objects: engines hold a reference into the heap. *)
Abbreviation loc := nat (only parsing).
Abbreviation heap := (gmap nat opener) (only parsing).

(** [oauth.Consumer(key=key, secret=secret)] *)
Record Consumer : Type := {
  consumer_key : string;
  consumer_secret : string
}.

(** What one call takes from outside the module: the iteration order of a
    [dict], [GzipFile(fileobj=StringIO(data)).read()], and [oauth2] (the
    values [generate_nonce()] and [make_timestamp()] return in this call,
    and the parameters of the [Request] for [GET url] after
    [sign_request] with HMAC-SHA1, the consumer and no token). *)
Record Runtime : Type := {
  iteritems : forall {K} `{Countable K} {V}, gmap K V -> list (K * V);
  iteritems_perm : forall K `{Countable K} V (m : gmap K V),
    Permutation (iteritems m) (map_to_list m);
  gunzip : string -> outcome string;
  OAUTH_VERSION : string;
  generate_nonce : string;
  make_timestamp : string;
  sign_request : Consumer -> string -> gmap string string ->
                 gmap Py.unicode Py.unicode
}.

(** ** The engines *)

(** An engine instance: [self.cred] and [self.opener]. *)
Record engine : Type := {
  self_cred : gmap string string;
  self_opener : loc
}.

Module _BaseSearchEngine.

Definition name : string := "Base".

Definition __init__ (cred : gmap string string) (opener : loc) (h : heap)
  : outcome engine * heap :=
  (Return {| self_cred := cred; self_opener := opener |}, h).

Definition requirements : list string := [].

End _BaseSearchEngine.

(** [response.headers.get("Content-Encoding") == "gzip"] *)
Definition is_gzip (r : response) : bool :=
  match headers_get r "Content-Encoding" with
  | Some v => String.eqb v "gzip"
  | None => false
  end.

Definition append_header (hd : string * string) (o : opener) : opener :=
  {| addheaders := addheaders o ++ [hd]; open := open o |}.

Module BingSearchEngine.

Definition name : string := "Bing".

Definition requirements : list string := _BaseSearchEngine.requirements.

Definition __init__ (cred : gmap string string) (opener : loc) (h : heap)
  : outcome engine * heap :=
  match _BaseSearchEngine.__init__ cred opener h with
  | (Raise e, h1) => (Raise e, h1)
  | (Return self, h1) =>
      match getitem_str self.(self_cred) "key" with
      | Raise e => (Raise e, h1)
      | Return key =>
          let auth := Py.replace Py.newline "" (Py.encode_base64 (key +:+ ":" +:+ key)) in
          (Return self,
           alter (append_header ("Authorization", "Basic " +:+ auth)) self.(self_opener) h1)
      end
  end.

Definition search (rt : Runtime) (h : heap) (self : engine) (query : Py.unicode)
  : outcome (list Py.json) :=
  type ← getitem_str self.(self_cred) "type";
  let service := if String.eqb type "searchweb" then "SearchWeb" else "Search" in
  let url := "https://api.datamarket.azure.com/Bing/" +:+ service +:+ "/Web?" in
  let params : gmap string string :=
    list_to_map
      [ ("$format", "json");
        ("$top", "5");
        ("Query", "'" +:+ String Py.dquote
                    (Py.encode_utf8 (Py.ureplace 34 [] query) +:+ String Py.dquote "'"));
        ("Market", "'en-US'");
        ("Adult", "'Off'");
        ("Options", "'DisableLocationDetection'");
        ("WebSearchOptions", "'DisableHostCollapsing+DisableQueryAlterations'") ] in
  let o := h !!! self.(self_opener) in
  match (response ← open o (addheaders o) (url +:+ Py.urlencode (iteritems rt params));
         result ← read response;
         Return (response, result)) with
  | Raise (URLError exc) | Raise (socket_error exc) =>
      Raise (SearchQueryError ("Bing Error: " +:+ exc))
  | Raise e => Raise e
  | Return (response, result) =>
      result ← (if is_gzip response then gunzip rt result else Return result);
      if negb (Z.eqb (getcode response) 200) then
        Raise (SearchQueryError
                 ("Bing Error: got response code '" +:+ Py.str_int (getcode response)
                    +:+ "':" +:+ String Py.newline (result +:+ "'")))
      else
        match Py.loads result with
        | None => Raise (SearchQueryError "Bing Error: JSON could not be decoded")
        | Some res =>
            match (d ← getitem res "d"; getitem d "results") with
            | Raise (KeyError _) => Return []
            | Raise e => Raise e
            | Return results =>
                rs ← iter results;
                mapM (fun result => getitem result "Url") rs
            end
        end
  end.

End BingSearchEngine.

Module YahooBOSSSearchEngine.

Definition name : string := "Yahoo! BOSS".

Definition __init__ (cred : gmap string string) (opener : loc) (h : heap)
  : outcome engine * heap :=
  _BaseSearchEngine.__init__ cred opener h.

(** [enc = lambda s: quote(s.encode("utf8"), safe="")] *)
Definition enc (s : Py.unicode) : string := Py.quote (Py.encode_utf8 s) "".

Definition _build_url (rt : Runtime) (base : string)
    (params : gmap Py.unicode Py.unicode) : string :=
  let args := map (fun kv => Py.join "=" [enc (fst kv); enc (snd kv)])
                  (iteritems rt params) in
  base +:+ "?" +:+ Py.join "&" args.

Definition requirements : list string := ["oauth2"].

Definition search (rt : Runtime) (h : heap) (self : engine) (query : Py.unicode)
  : outcome (list Py.json) :=
  key ← getitem_str self.(self_cred) "key";
  secret ← getitem_str self.(self_cred) "secret";
  let consumer := {| consumer_key := key; consumer_secret := secret |} in
  let url := "http://yboss.yahooapis.com/ysearch/web" in
  let params : gmap string string :=
    list_to_map
      [ ("oauth_version", OAUTH_VERSION rt);
        ("oauth_nonce", generate_nonce rt);
        ("oauth_timestamp", make_timestamp rt);
        ("oauth_consumer_key", consumer_key consumer);
        ("q", String Py.dquote (Py.encode_utf8 query +:+ String Py.dquote ""));
        ("count", "5");
        ("type", "html,text,pdf");
        ("format", "json") ] in
  let req := sign_request rt consumer url params in
  let o := h !!! self.(self_opener) in
  match (response ← open o (addheaders o) (_build_url rt url req);
         result ← read response;
         Return (response, result)) with
  | Raise (URLError exc) | Raise (socket_error exc) =>
      Raise (SearchQueryError ("Yahoo! BOSS Error: " +:+ exc))
  | Raise e => Raise e
  | Return (response, result) =>
      result ← (if is_gzip response then gunzip rt result else Return result);
      if negb (Z.eqb (getcode response) 200) then
        Raise (SearchQueryError
                 ("Yahoo! BOSS Error: got response code '" +:+ Py.str_int (getcode response)
                    +:+ "':" +:+ String Py.newline (result +:+ "'")))
      else
        match Py.loads result with
        | None => Raise (SearchQueryError "Yahoo! BOSS Error: JSON could not be decoded")
        | Some res =>
            match (b ← getitem res "bossresponse";
                   w ← getitem b "web";
                   getitem w "results") with
            | Raise (KeyError _) => Return []
            | Raise e => Raise e
            | Return results =>
                rs ← iter results;
                mapM (fun result => getitem result "url") rs
            end
        end
  end.

End YahooBOSSSearchEngine.

(** [SEARCH_ENGINES]: the display name of each engine class. *)
Inductive engine_class : Type := Bing | YahooBOSS.

Definition SEARCH_ENGINES : gmap string engine_class :=
  list_to_map [ (BingSearchEngine.name, Bing); (YahooBOSSSearchEngine.name, YahooBOSS) ].


Definition search (c : engine_class) (rt : Runtime) (h : heap) (self : engine)
    (query : Py.unicode) : outcome (list Py.json) :=
  match c with
  | Bing => BingSearchEngine.search rt h self query
  | YahooBOSS => YahooBOSSSearchEngine.search rt h self query
  end.

(** ** A mock runtime and a mock provider

    For running the engines on examples. The mock runtime walks a dict in
    key order, reads gzip members whose one deflate block is stored
    (what [gzip] writes at compression level 0), checking the CRC-32 and
    the length, and leaves the request unsigned but for a constant
    signature. *)

Module Mock.

Fixpoint crc_shift (k : nat) (c : N) : N :=
  match k with
  | O => c
  | S k' => crc_shift k' (if N.odd c then N.lxor (N.shiftr c 1) 3988292384
                          else N.shiftr c 1)
  end.

Fixpoint crc_update (c : N) (s : string) : N :=
  match s with
  | EmptyString => c
  | String b s' => crc_update (crc_shift 8 (N.lxor c (N_of_ascii b))) s'
  end.

Definition crc32 (s : string) : N := N.lxor (crc_update 4294967295 s) 4294967295.

Definition le (k : nat) (n : N) : string :=
  (fix go (k : nat) (n : N) : string :=
     match k with
     | O => EmptyString
     | S k' => String (Py.byte n) (go k' (n / 256)%N)
     end) k n.

Fixpoint of_le (s : string) : N :=
  match s with
  | EmptyString => 0
  | String b s' => (N_of_ascii b + 256 * of_le s')%N
  end.

Fixpoint bytes (l : list N) : string :=
  match l with
  | [] => EmptyString
  | n :: l' => String (Py.byte n) (bytes l')
  end.

(** The gzip member of [data] with one stored block (at most 65535 bytes). *)
Definition gzip (data : string) : string :=
  let n := N.of_nat (String.length data) in
  bytes [31; 139; 8; 0; 0; 0; 0; 0; 4; 3; 1]%N
    +:+ le 2 n +:+ le 2 (65535 - n) +:+ data +:+ le 4 (crc32 data) +:+ le 4 n.

Definition not_gzipped : exception := Other "IOError" "Not a gzipped file".

Definition read_stored (s : string) : outcome string :=
  if String.eqb (Py.take 4 s) (bytes [31; 139; 8; 0]%N) then
    let block := Py.drop 10 s in
    let len := of_le (Py.take 2 (Py.drop 1 block)) in
    let nlen := of_le (Py.take 2 (Py.drop 3 block)) in
    let data := Py.take (N.to_nat len) (Py.drop 5 block) in
    let trailer := Py.drop (N.to_nat len) (Py.drop 5 block) in
    if (String.eqb (Py.take 1 block) (bytes [1%N]) && N.eqb (len + nlen) 65535
        && Nat.eqb (String.length data) (N.to_nat len)
        && Nat.eqb (String.length trailer) 8)%bool then
      if (N.eqb (of_le (Py.take 4 trailer)) (crc32 data)
          && N.eqb (of_le (Py.drop 4 trailer)) len)%bool
      then Return data
      else Raise (Other "IOError" "CRC check failed")
    else Raise not_gzipped
  else Raise not_gzipped.

Definition to_unicode (kv : string * string) : Py.unicode * Py.unicode :=
  (Py.u (fst kv), Py.u (snd kv)).

Definition constant_signature (consumer : Consumer) (url : string)
    (params : gmap string string) : gmap Py.unicode Py.unicode :=
  <[Py.u "oauth_signature" := Py.u "c2lnbmF0dXJl"]>
    (<[Py.u "oauth_signature_method" := Py.u "HMAC-SHA1"]>
       (list_to_map (map to_unicode (map_to_list params)))).

Definition runtime : Runtime :=
  {| iteritems := fun K _ _ V m => map_to_list m;
     iteritems_perm := fun K _ _ V m => Permutation_refl _;
     gunzip := read_stored;
     OAUTH_VERSION := "1.0";
     generate_nonce := "81726354";
     make_timestamp := "1420070400";
     sign_request := constant_signature |}.

(** A response with a status code, a content encoding and a body. *)
Definition reply (code : Z) (encoding : option string) (body : string) : response :=
  {| read := Return body;
     headers_get := fun h =>
       if String.eqb h "Content-Encoding" then encoding else None;
     getcode := code |}.

(** A provider that answers every request with the same response. *)
Definition provider (code : Z) (encoding : option string) (body : string) : opener :=
  {| addheaders := [("User-agent", "EarwigBot")];
     open := fun _ _ => Return (reply code encoding body) |}.

(** The heap of a caller that holds one such provider. *)
Definition world (code : Z) (encoding : option string) (body : string) : heap :=
  {[ 0 := provider code encoding body ]}.

Definition bing_body : string :=
  Py.dq "{'d':{'results':[{'Url':'http://a'},{'Url':'http://b'}]}}".

Definition yahoo_body : string :=
  Py.dq "{'bossresponse':{'web':{'results':[{'url':'http://a'},{'url':'http://b'}]}}}".

Definition urls_ab : list Py.json :=
  [Py.JUnicode (Py.u "http://a"); Py.JUnicode (Py.u "http://b")].

(** A transport that fails to connect. *)
Definition unreachable : opener :=
  {| addheaders := [];
     open := fun _ _ => Raise (URLError "<urlopen error timed out>") |}.

Definition bing_engine : engine :=
  {| self_cred := {[ "key" := "k3y"; "type" := "searchweb" ]}; self_opener := 0 |}.

Definition yahoo_engine : engine :=
  {| self_cred := {[ "key" := "k3y"; "secret" := "s3cret" ]}; self_opener := 0 |}.

Definition engine_of (c : engine_class) : engine :=
  match c with
  | Bing => bing_engine
  | YahooBOSS => yahoo_engine
  end.

End Mock.

(** ** Vocabulary of the properties *)

Definition name (c : engine_class) : string :=
  match c with
  | Bing => BingSearchEngine.name
  | YahooBOSS => YahooBOSSSearchEngine.name
  end.

(** The text without its double quotes. *)
Definition strip_quotes (q : Py.unicode) : Py.unicode :=
  List.filter (fun c => negb (N.eqb c 34)) q.

(** The parameters of a Bing request: [Query] is the query without its
    double quotes, in UTF-8, between a quote and a double quote on each
    side. *)
Definition bing_query (q : Py.unicode) : string :=
  "'" +:+ String Py.dquote (Py.encode_utf8 (strip_quotes q) +:+ String Py.dquote "'").

Definition bing_items (q : Py.unicode) : list (string * string) :=
  [ ("$format", "json");
    ("$top", "5");
    ("Query", bing_query q);
    ("Market", "'en-US'");
    ("Adult", "'Off'");
    ("Options", "'DisableLocationDetection'");
    ("WebSearchOptions", "'DisableHostCollapsing+DisableQueryAlterations'") ].

Definition bing_service (type : string) : string :=
  if String.eqb type "searchweb" then "SearchWeb" else "Search".

(** The URL of a Bing request. *)
Definition bing_url (rt : Runtime) (type : string) (q : Py.unicode) : string :=
  ("https://api.datamarket.azure.com/Bing/" +:+ bing_service type +:+ "/Web?")
    +:+ Py.urlencode (iteritems rt (list_to_map (bing_items q) : gmap string string)).

(** The parameters of a Yahoo! BOSS request before signing, and its URL. *)
Definition yahoo_items (rt : Runtime) (key : string) (q : Py.unicode)
  : list (string * string) :=
  [ ("oauth_version", OAUTH_VERSION rt);
    ("oauth_nonce", generate_nonce rt);
    ("oauth_timestamp", make_timestamp rt);
    ("oauth_consumer_key", key);
    ("q", String Py.dquote (Py.encode_utf8 q +:+ String Py.dquote ""));
    ("count", "5");
    ("type", "html,text,pdf");
    ("format", "json") ].

Definition yahoo_url (rt : Runtime) (key secret : string) (q : Py.unicode) : string :=
  let url := "http://yboss.yahooapis.com/ysearch/web" in
  YahooBOSSSearchEngine._build_url rt url
    (sign_request rt {| consumer_key := key; consumer_secret := secret |} url
       (list_to_map (yahoo_items rt key q))).

(** The URL a search requests, once the credentials are read. *)
Definition request (c : engine_class) (rt : Runtime) (self : engine)
    (query : Py.unicode) : outcome string :=
  match c with
  | Bing =>
      type ← getitem_str self.(self_cred) "type";
      Return (bing_url rt type query)
  | YahooBOSS =>
      key ← getitem_str self.(self_cred) "key";
      secret ← getitem_str self.(self_cred) "secret";
      Return (yahoo_url rt key secret query)
  end.

(** [self.opener.open(url)] *)
Definition fetch (h : heap) (self : engine) (url : string) : outcome response :=
  let o := h !!! self.(self_opener) in open o (addheaders o) url.

(** The response to the request of a search. *)
Definition exchange (c : engine_class) (rt : Runtime) (h : heap) (self : engine)
    (query : Py.unicode) : outcome response :=
  url ← request c rt self query; fetch h self url.

(** The body of a response after the gzip step. *)
Definition content_of (rt : Runtime) (r : response) : outcome string :=
  result ← read r;
  if is_gzip r then gunzip rt result else Return result.

(** The keys a search walks down in the parsed response, and the field it
    takes from each entry. *)
Definition path (c : engine_class) : list string :=
  match c with
  | Bing => ["d"; "results"]
  | YahooBOSS => ["bossresponse"; "web"; "results"]
  end.

Definition url_field (c : engine_class) : string :=
  match c with
  | Bing => "Url"
  | YahooBOSS => "url"
  end.

(** The value at the end of a path of keys through nested dicts. *)
Fixpoint at_path (p : list string) (v : Py.json) : option Py.json :=
  match p with
  | [] => Some v
  | k :: p' =>
      match v with
      | Py.JDict d =>
          match d !! Py.u k with
          | Some x => at_path p' x
          | None => None
          end
      | _ => None
      end
  end.


(** [entry] is a dict whose [field] is [value]. *)
Definition has_field (field : string) (entry value : Py.json) : Prop :=
  exists d, entry = Py.JDict d /\ d !! Py.u field = Some value.

Definition status_error (c : engine_class) (code : Z) (content : string) : string :=
  name c +:+ " Error: got response code '" +:+ Py.str_int code
    +:+ "':" +:+ String Py.newline (content +:+ "'").

Definition decode_error (c : engine_class) : string :=
  name c +:+ " Error: JSON could not be decoded".

(** What a search makes of the parsed response, and of the status code
    and content of a response. *)
Definition results_of (c : engine_class) (res : Py.json) : outcome (list Py.json) :=
  match c with
  | Bing =>
      match (d ← getitem res "d"; getitem d "results") with
      | Raise (KeyError _) => Return []
      | Raise e => Raise e
      | Return results =>
          rs ← iter results; mapM (fun result => getitem result "Url") rs
      end
  | YahooBOSS =>
      match (b ← getitem res "bossresponse"; w ← getitem b "web";
             getitem w "results") with
      | Raise (KeyError _) => Return []
      | Raise e => Raise e
      | Return results =>
          rs ← iter results; mapM (fun result => getitem result "url") rs
      end
  end.

Definition interpret (c : engine_class) (code : Z) (content : string)
  : outcome (list Py.json) :=
  if negb (Z.eqb code 200) then Raise (SearchQueryError (status_error c code content))
  else match Py.loads content with
       | None => Raise (SearchQueryError (decode_error c))
       | Some res => results_of c res
       end.

(** What a search makes of the outcome of [opener.open]. *)
Definition handle (c : engine_class) (rt : Runtime) (opened : outcome response)
  : outcome (list Py.json) :=
  match (response ← opened; result ← read response; Return (response, result)) with
  | Raise (URLError exc) | Raise (socket_error exc) =>
      Raise (SearchQueryError (name c +:+ " Error: " +:+ exc))
  | Raise e => Raise e
  | Return (response, result) =>
      content ← (if is_gzip response then gunzip rt result else Return result);
      interpret c (getcode response) content
  end.

(** [sub in s] *)
Fixpoint contains (sub s : string) : bool :=
  if String.prefix sub s then true
  else match s with
       | EmptyString => false
       | String _ s' => contains sub s'
       end.

(** The characters [urllib.quote] never escapes. *)
Definition unreserved (c : ascii) : bool :=
  let n := N_of_ascii c in
  ((N.leb 65 n && N.leb n 90) || (N.leb 97 n && N.leb n 122)
   || (N.leb 48 n && N.leb n 57)
   || N.eqb n 95 || N.eqb n 46 || N.eqb n 45)%bool.

Fixpoint chars (s : string) : list ascii :=
  match s with
  | EmptyString => []
  | String c s' => c :: chars s'
  end.

Fixpoint flat (l : list string) : string :=
  match l with
  | [] => EmptyString
  | x :: l' => x +:+ flat l'
  end.

(** Percent-encoding: an unreserved byte stands for itself, any other
    byte is written [%XX]. In form encoding a space is written [+]. *)
Definition escape (c : ascii) : string :=
  if unreserved c then String c EmptyString else Py.percent c.

Definition percent_encode (s : string) : string := flat (map escape (chars s)).

Definition escape_plus (c : ascii) : string :=
  if Ascii.eqb c " " then "+" else escape c.

Definition form_encode (s : string) : string := flat (map escape_plus (chars s)).


(** ** More scenes for the examples *)

Module Scene.

(** A provider whose response cannot be read. *)
Definition broken_read : opener :=
  {| addheaders := [];
     open := fun _ _ =>
       Return {| read := Raise (socket_error "[Errno 104] Connection reset by peer");
                 headers_get := fun _ => None;
                 getcode := 200 |} |}.

(** A provider that answers with the default headers it was given, as a
    JSON list under the key of the Bing results. *)
Definition echo_headers : opener :=
  {| addheaders := [("User-agent", "EarwigBot")];
     open := fun hs _ =>
       Return (Mock.reply 200 None
                 (Py.dq "{'d':{'results':[" +:+
                  Py.join ","
                    (map (fun kv => Py.dq "{'Url':'" +:+ fst kv +:+ ": " +:+ snd kv
                                      +:+ Py.dq "'}") hs)
                  +:+ "]}}")) |}.

(** Two openers side by side. *)
Definition two_openers : gmap nat opener :=
  {[ 0 := echo_headers; 1 := Mock.provider 200 None Mock.bing_body ]}.

Definition engine_at (l : nat) : engine :=
  {| self_cred := {[ "key" := "k3y"; "type" := "searchweb" ]}; self_opener := l |}.

End Scene.

(** ** More vocabulary *)

(** What the handler of a search makes of an exception of the transport. *)
Definition wrapped (c : engine_class) (e : exception) : exception :=
  match e with
  | URLError text | socket_error text =>
      SearchQueryError (name c +:+ " Error: " +:+ text)
  | _ => e
  end.

(** The credentials a search reads, in the order it reads them, and the
    first of them that a dict of credentials lacks. *)
Definition credentials (c : engine_class) : list string :=
  match c with
  | Bing => ["type"]
  | YahooBOSS => ["key"; "secret"]
  end.

Definition first_missing (c : engine_class) (cred : gmap string string)
  : option string :=
  List.find (fun k => bool_decide (cred !! k = None)) (credentials c).

(** On the way down the path, a value that is no dict stands where a key
    is to be looked up. *)
Fixpoint blocked (p : list string) (v : Py.json) : bool :=
  match p with
  | [] => false
  | k :: p' =>
      match v with
      | Py.JDict d =>
          match d !! Py.u k with
          | Some x => blocked p' x
          | None => false
          end
      | _ => true
      end
  end.

(** What indexing an entry by the field raises, if anything: [KeyError]
    for a dict without the field, [TypeError] for an entry that is no
    dict. *)
Definition entry_error (field : string) (entry : Py.json) : option exception :=
  match entry with
  | Py.JDict d =>
      match d !! Py.u field with
      | Some _ => None
      | None => Some (KeyError field)
      end
  | _ => Some TypeError
  end.

(** A dict without keys or a string without characters. *)
Definition no_elements (v : Py.json) : bool :=
  match v with
  | Py.JDict d => Nat.eqb (size d) 0
  | Py.JUnicode s => Nat.eqb (length s) 0
  | _ => false
  end.

(** The header the Bing engine adds for a key. *)
Definition authorization (key : string) : string * string :=
  ("Authorization", "Basic " +:+ Py.b64 (key +:+ ":" +:+ key)).

(** [urllib.unquote] and [urllib.unquote_plus], the inverses the receiving
    side applies: a percent sign followed by two hexadecimal digits, of
    either case, stands for one byte; any other percent sign stands for
    itself. *)
Module Url.

Fixpoint unquote (s : string) : string :=
  match s with
  | EmptyString => EmptyString
  | String c rest =>
      if Ascii.eqb c "%" then
        match rest with
        | String a (String b rest') =>
            match Py.hex_val a, Py.hex_val b with
            | Some x, Some y => String (ascii_of_N (16 * x + y)) (unquote rest')
            | _, _ => String c (unquote rest)
            end
        | _ => String c (unquote rest)
        end
      else String c (unquote rest)
  end.

Definition unquote_plus (s : string) : string :=
  unquote (Py.replace "+" " " s).

End Url.

(** [s.split(c)] for a one-byte separator. *)
Fixpoint split (c : ascii) (s : string) : list string :=
  match s with
  | EmptyString => [EmptyString]
  | String d s' =>
      if Ascii.eqb d c then EmptyString :: split c s'
      else match split c s' with
           | x :: l => String d x :: l
           | [] => [String d EmptyString]
           end
  end.

(** The reading of a query string by the receiving side: the pieces
    between ampersands, each a name and a value around one equals sign,
    both decoded by [decode]. *)
Definition parse_pair (decode : string -> string) (piece : string)
  : option (string * string) :=
  match split "=" piece with
  | [k; v] => Some (decode k, decode v)
  | _ => None
  end.

Definition parse_qs (decode : string -> string) (qs : string)
  : list (option (string * string)) :=
  map (parse_pair decode) (split "&" qs).

(** ** earwigbot.irc.frontend

    [Frontend] is a subclass of [IRCConnection]; that class, [Data] and the
    command manager are not part of this file. What [Frontend] does to
    them is a trace of actions; what it needs from them is a parameter:
    the construction of a [Data] (which may raise), the truth of its
    [is_private], [str] of a configuration value and the items a [for]
    loop over one visits. Calls into them are taken to return. *)

Module Frontend.

Definition IndexError : exception := Other "IndexError" "list index out of range".

Section Frontend.

Context {V data : Type}.
Context (Data : V -> list string -> string -> outcome data).
Context (is_private : data -> bool).
Context (str : V -> string).
Context (elements : V -> outcome (list V)).

Inductive action : Type :=
| GetChild (name : string)
| BaseInit (host port nick ident realname : V)
| Connect
| CommandCall (hook : string) (d : data)
| Say (target msg : string) (hidelog : bool)
| Join (chan : V).

(** A computation that acts on the collaborators and returns or raises:
    the actions it has done and its outcome. *)
Definition io (A : Type) : Type := list action * outcome A.

Definition act (a : action) : io unit := ([a], Return tt).
Definition lift {A} (o : outcome A) : io A := ([], o).

Definition bind {A B} (c : io A) (k : A -> io B) : io B :=
  match c with
  | (t, Raise e) => (t, Raise e)
  | (t, Return a) => let (t', r) := k a in (t ++ t', r)
  end.

Fixpoint for_each {A} (f : A -> io unit) (l : list A) : io unit :=
  match l with
  | [] => lift (Return tt)
  | x :: l' => bind (f x) (fun _ => for_each f l')
  end.

(** [d[key]] on a dict of the configuration. *)
Definition item {A} (d : gmap string A) (key : string) : outcome A :=
  match d !! key with
  | Some v => Return v
  | None => Raise (KeyError key)
  end.

Definition __init__ (irc : gmap string (gmap string V)) : io unit :=
  bind (act (GetChild "frontend")) (fun _ =>
  bind (lift (item irc "frontend")) (fun cf =>
  bind (lift (host ← item cf "host";
              port ← item cf "port";
              nick ← item cf "nick";
              ident ← item cf "ident";
              realname ← item cf "realname";
              Return (BaseInit host port nick ident realname)))
       (fun base_init =>
  bind (act base_init) (fun _ =>
  act Connect)))).

Definition _process_message (irc : gmap string (gmap string V)) (nick : V)
    (line : list string) : io unit :=
  bind (lift (match line !! 1 with
              | Some field => Return field
              | None => Raise IndexError
              end)) (fun field =>
  if String.eqb field "JOIN" then
    bind (lift (Data nick line "JOIN")) (fun data =>
    act (CommandCall "join" data))
  else if String.eqb field "PRIVMSG" then
    bind (lift (Data nick line "PRIVMSG")) (fun data =>
    bind (if is_private data then act (CommandCall "msg_private" data)
          else act (CommandCall "msg_public" data)) (fun _ =>
    act (CommandCall "msg" data)))
  else if String.eqb field "376" then
    bind (match (frontend ← item irc "frontend";
                 username ← item frontend "nickservUsername";
                 frontend' ← item irc "frontend";
                 password ← item frontend' "nickservPassword";
                 Return (username, password)) with
          | Raise (KeyError _) => lift (Return tt)
          | Raise e => lift (Raise e)
          | Return (username, password) =>
              let msg := "IDENTIFY " +:+ str username +:+ " " +:+ str password in
              act (Say "NickServ" msg true)
          end) (fun _ =>
    bind (lift (frontend ← item irc "frontend"; item frontend "channels")) (fun chans =>
    bind (lift (elements chans)) (fun l =>
    for_each (fun chan => act (Join chan)) l)))
  else lift (Return tt)).

End Frontend.

(** The hooks, messages and joins among the actions of a trace. *)
Definition hooks {V data} (t : list (@action V data)) : list string :=
  omap (fun a => match a with CommandCall hook _ => Some hook | _ => None end) t.

Definition said {V data} (t : list (@action V data)) : list (string * string * bool) :=
  omap (fun a => match a with Say target msg hidelog => Some (target, msg, hidelog)
                          | _ => None end) t.

Definition joined {V data} (t : list (@action V data)) : list V :=
  omap (fun a => match a with Join chan => Some chan | _ => None end) t.

(** The settings [__init__] reads, in the order it reads them, and the
    first of them that a configuration lacks. *)
Definition settings : list string := ["host"; "port"; "nick"; "ident"; "realname"].

Definition first_unset {V} (cf : gmap string V) : option string :=
  List.find (fun k => match cf !! k with None => true | Some _ => false end) settings.

(** The channels to join: the value under [channels] of the frontend. *)
Definition channels {V} (irc : gmap string (gmap string V)) : option V :=
  match irc !! "frontend" with
  | Some cf => cf !! "channels"
  | None => None
  end.

(** The message that identifies to NickServ. *)
Definition identify {V} (str : V -> string) (up : V * V) : string * string * bool :=
  ("NickServ", "IDENTIFY " +:+ str (fst up) +:+ " " +:+ str (snd up), true).

(** Both NickServ credentials are in the configuration of the frontend. *)
Definition nickserv {V} (irc : gmap string (gmap string V)) : option (V * V) :=
  match irc !! "frontend" with
  | Some cf =>
      match cf !! "nickservUsername", cf !! "nickservPassword" with
      | Some u, Some p => Some (u, p)
      | _, _ => None
      end
  | None => None
  end.

(** Values and messages for the examples: a value is a text or a list of
    values, a message is private when its target is no channel. *)
Module Sample.

Inductive value : Type :=
| Text (s : string)
| Items (l : list value).

Definition text (v : value) : string :=
  match v with
  | Text s => s
  | Items _ => "[...]"
  end.

Definition items (v : value) : outcome (list value) :=
  match v with
  | Text s => Return (map (fun c => Text (String c "")) (chars s))
  | Items l => Return l
  end.

Record message : Type := {
  msg_line : list string;
  msg_type : string;
  msg_private : bool
}.

Definition parse (nick : value) (line : list string) (msgtype : string)
  : outcome message :=
  match line !! 2 with
  | None => Raise IndexError
  | Some target =>
      Return {| msg_line := line; msg_type := msgtype;
                msg_private := negb (String.prefix "#" target) |}
  end.

Definition irc (cf : gmap string value) : gmap string (gmap string value) :=
  {[ "frontend" := cf ]}.

Definition full : gmap string value :=
  {[ "host" := Text "irc.freenode.net"; "port" := Text "6667";
     "nick" := Text "EarwigBot"; "ident" := Text "earwigbot";
     "realname" := Text "[[w:en:User:EarwigBot]]";
     "nickservUsername" := Text "EarwigBot"; "nickservPassword" := Text "hunter2";
     "channels" := Items [Text "##earwigbot"; Text "#wikipedia-en"] ]}.

End Sample.

End Frontend.

(** Case analysis on the scrutinee of a match. *)
Ltac break_match :=
  match goal with
  | H : context [match ?x with _ => _ end] |- _ => destruct x eqn:?
  | |- context [match ?x with _ => _ end] => destruct x eqn:?
  end.

Example quote_space : Py.quote "a b/c" "" = "a%20b%2Fc".
Proof. reflexivity. Qed.

Example quote_plus_space : Py.quote_plus "'a b+c/'" = "%27a+b%2Bc%2F%27".
Proof. reflexivity. Qed.

Example str_int_500 : Py.str_int 500 = "500" /\ Py.str_int (-42) = "-42" /\ Py.str_int 1000 = "1000".
Proof. repeat split; reflexivity. Qed.

Example utf8_euro : Py.encode_utf8 [8364%N; 233%N; 128512%N] =
  String (ascii_of_N 226) (String (ascii_of_N 130) (String (ascii_of_N 172)
  (String (ascii_of_N 195) (String (ascii_of_N 169)
  (String (ascii_of_N 240) (String (ascii_of_N 159) (String (ascii_of_N 152) (String (ascii_of_N 128) EmptyString)))))))).
Proof. reflexivity. Qed.

Example b64_foobar : Py.b64 "foobar" = "Zm9vYmFy" /\ Py.b64 "fooba" = "Zm9vYmE=" /\ Py.b64 "foob" = "Zm9vYg==".
Proof. repeat split; reflexivity. Qed.

Example encode_base64_long :
  Py.encode_base64 "0123456789012345678901234567890123456789012345678901234567:0123456789012345678901234567890123456789012345678901234567" =
  "MDEyMzQ1Njc4OTAxMjM0NTY3ODkwMTIzNDU2Nzg5MDEyMzQ1Njc4OTAxMjM0NTY3ODkwMTIzNDU2" +:+ String Py.newline
  "NzowMTIzNDU2Nzg5MDEyMzQ1Njc4OTAxMjM0NTY3ODkwMTIzNDU2Nzg5MDEyMzQ1Njc4OTAxMjM0" +:+ String Py.newline
  "NTY3" +:+ String Py.newline "".
Proof. vm_compute. reflexivity. Qed.

Example match_number_ex :
  Py.match_number "-12.5e+3," = Some (Py.JFloat "-12.5e+3", ",") /\
  Py.match_number "012" = Some (Py.JInt 0, "12") /\
  Py.match_number "-907]" = Some (Py.JInt (-907), "]") /\
  Py.match_number "1.e5" = Some (Py.JInt 1, ".e5") /\
  Py.match_number "-" = None.
Proof. repeat split; reflexivity. Qed.

Example loads_bing :
  Py.loads (Py.dq "{'d':{'results':[{'Url':'http://a'},{'Url':'http://b'}]}}") =
  Some (Py.JDict {[ Py.u "d" := Py.JDict {[ Py.u "results" :=
    Py.JList [Py.JDict {[ Py.u "Url" := Py.JUnicode (Py.u "http://a") ]};
              Py.JDict {[ Py.u "Url" := Py.JUnicode (Py.u "http://b") ]}] ]} ]}).
Proof. vm_compute. reflexivity. Qed.

Example loads_misc :
  Py.loads (Py.dq " [1, -2.5e3, true, null, 'a\u00e9\ud83d\ude00\n', {}, {'k': [], 'k': 2}] ") =
  Some (Py.JList [Py.JInt 1; Py.JFloat "-2.5e3"; Py.JBool true; Py.JNone;
                  Py.JUnicode [97; 233; 128512; 10]%N; Py.JDict ∅;
                  Py.JDict {[ Py.u "k" := Py.JInt 2 ]}]) /\
  Py.loads "server error" = None /\
  Py.loads "" = None /\
  Py.loads "[1,]" = None /\
  Py.loads "{} x" = None /\
  Py.loads "01" = None.
Proof. vm_compute. repeat split; reflexivity. Qed.

Example gzip_vector :
  Mock.gzip "server error" =
  Mock.bytes [31; 139; 8; 0; 0; 0; 0; 0; 4; 3; 1; 12; 0; 243; 255; 115; 101; 114; 118;
              101; 114; 32; 101; 114; 114; 111; 114; 108; 97; 40; 7; 12; 0; 0; 0]%N /\
  Mock.read_stored (Mock.gzip "server error") = Return "server error" /\
  Mock.read_stored "server error" = Raise Mock.not_gzipped.
Proof. vm_compute. repeat split; reflexivity. Qed.

Example bing_run :
  BingSearchEngine.search Mock.runtime
    {[ 0 := Mock.provider 200 None
              (Py.dq "{'d':{'results':[{'Url':'http://a'},{'Url':'http://b'}]}}") ]}
    Mock.bing_engine (Py.u "hello world")
  = Return [Py.JUnicode (Py.u "http://a"); Py.JUnicode (Py.u "http://b")].
Proof. vm_compute. reflexivity. Qed.

(** ** Strings *)

Lemma append_cons (c : ascii) (s t : string) : String c s +:+ t = String c (s +:+ t).
Proof. reflexivity. Qed.

Lemma append_nil_r (s : string) : s +:+ "" = s.
Proof. induction s as [|c s IH]; [reflexivity|]. rewrite append_cons, IH. reflexivity. Qed.

Lemma append_assoc (s t r : string) : (s +:+ t) +:+ r = s +:+ (t +:+ r).
Proof.
  induction s as [|c s IH]; [reflexivity|]. rewrite !append_cons, IH. reflexivity.
Qed.

Lemma prefix_app (sub b : string) : String.prefix sub (sub +:+ b) = true.
Proof.
  induction sub as [|c sub IH]; [destruct b; reflexivity|].
  rewrite append_cons. simpl. destruct (ascii_dec c c); [exact IH|congruence].
Qed.

Lemma contains_unfold (sub s : string) :
  contains sub s =
    if String.prefix sub s then true
    else match s with
         | EmptyString => false
         | String _ s' => contains sub s'
         end.
Proof. destruct s; reflexivity. Qed.

Lemma contains_app (a sub b : string) : contains sub (a +:+ sub +:+ b) = true.
Proof.
  induction a as [|c a IH].
  - change ("" +:+ sub +:+ b) with (sub +:+ b).
    rewrite contains_unfold, prefix_app. reflexivity.
  - rewrite append_cons, contains_unfold, IH. destruct (String.prefix _ _); reflexivity.
Qed.

(** ** Encodings *)

Lemma chars_app (a b : string) : chars (a +:+ b) = chars a ++ chars b.
Proof.
  induction a as [|c a IH]; [reflexivity|]. rewrite append_cons. simpl. rewrite IH.
  reflexivity.
Qed.

Lemma flat_app (l k : list string) : flat (l ++ k) = flat l +:+ flat k.
Proof.
  induction l as [|x l IH]; [reflexivity|]. simpl. rewrite IH, append_assoc. reflexivity.
Qed.

Lemma contains_char_app (c : ascii) (a b : string) :
  Py.contains_char c (a +:+ b) = (Py.contains_char c a || Py.contains_char c b)%bool.
Proof.
  induction a as [|d a IH]; [reflexivity|]. rewrite append_cons. simpl. rewrite IH.
  destruct (Ascii.eqb c d); reflexivity.
Qed.

Lemma replace_app (c : ascii) (new a b : string) :
  Py.replace c new (a +:+ b) = Py.replace c new a +:+ Py.replace c new b.
Proof.
  induction a as [|d a IH]; [reflexivity|]. rewrite append_cons. simpl. rewrite IH.
  destruct (Ascii.eqb d c); [rewrite append_assoc|]; reflexivity.
Qed.

(** With no extra safe character, [quote] is percent-encoding. *)
Lemma quoter_escape (c : ascii) : Py.quoter "" c = escape c.
Proof. destruct c as [[] [] [] [] [] [] [] []]; reflexivity. Qed.

Lemma quote_percent_encode (s : string) : Py.quote s "" = percent_encode s.
Proof.
  induction s as [|c s IH]; [reflexivity|]. simpl. rewrite IH, quoter_escape.
  reflexivity.
Qed.

Lemma quoter_space_plus (c : ascii) :
  Py.replace " " "+" (Py.quoter " " c) = escape_plus c.
Proof. destruct c as [[] [] [] [] [] [] [] []]; reflexivity. Qed.

Lemma escape_no_space (c : ascii) : Ascii.eqb " " c = false -> escape_plus c = escape c.
Proof. destruct c as [[] [] [] [] [] [] [] []]; (reflexivity || discriminate). Qed.

(** [quote_plus] is form encoding, whether or not the string has a
    space. *)
Lemma quote_plus_form_encode (s : string) : Py.quote_plus s = form_encode s.
Proof.
  unfold Py.quote_plus. destruct (Py.contains_char " " s) eqn:Hsp.
  - clear Hsp. induction s as [|c s IH]; [reflexivity|].
    simpl. rewrite replace_app, IH, quoter_space_plus. reflexivity.
  - rewrite quote_percent_encode. induction s as [|c s IH]; [reflexivity|].
    cbn [Py.contains_char] in Hsp.
    destruct (Ascii.eqb " " c) eqn:Hc; [discriminate|].
    unfold percent_encode, form_encode in *. simpl.
    rewrite (IH Hsp), (escape_no_space c Hc). reflexivity.
Qed.

Lemma urlencode_form_encode (items : list (string * string)) :
  Py.urlencode items =
    Py.join "&" (map (fun kv => form_encode (fst kv) +:+ "=" +:+ form_encode (snd kv)) items).
Proof.
  unfold Py.urlencode. f_equal. apply map_ext. intros [k v]. simpl.
  rewrite !quote_plus_form_encode. reflexivity.
Qed.

Lemma ureplace_strip_quotes (q : Py.unicode) : Py.ureplace 34 [] q = strip_quotes q.
Proof.
  induction q as [|c q IH]; [reflexivity|]. simpl.
  destruct (N.eqb c 34); simpl; rewrite IH; reflexivity.
Qed.

(** ** The base64 codec *)

Lemma b64_char_not_newline (n : N) : Ascii.eqb (Py.b64_char n) Py.newline = false.
Proof.
  unfold Py.b64_char. generalize (N.to_nat n) as k. intros k.
  do 64 (destruct k as [|k]; [reflexivity|]). reflexivity.
Qed.

Lemma b64_triple (a b c : ascii) (rest : string) :
  Py.b64 (String a (String b (String c rest))) =
    String (Py.b64_char (N_of_ascii a / 4))
      (String (Py.b64_char ((N_of_ascii a mod 4) * 16 + N_of_ascii b / 16))
         (String (Py.b64_char ((N_of_ascii b mod 16) * 4 + N_of_ascii c / 64))
            (String (Py.b64_char (N_of_ascii c mod 64)) (Py.b64 rest)))).
Proof. reflexivity. Qed.

(** Induction on strings three bytes at a time. *)
Lemma string_triples (P : string -> Prop) :
  P "" ->
  (forall a, P (String a "")) ->
  (forall a b, P (String a (String b ""))) ->
  (forall a b c rest, P rest -> P (String a (String b (String c rest)))) ->
  forall s, P s.
Proof.
  intros H0 H1 H2 H3 s.
  assert (Hall : P s /\ (forall a, P (String a s)) /\ (forall a b, P (String a (String b s)))).
  { induction s as [|c s (IHs & IH1 & IH2)]; [auto|].
    split; [apply IH1|]. split; [intros a; apply IH2|]. intros a b. apply H3, IHs. }
  apply Hall.
Qed.

(** The base64 text has no line end of its own. *)
Lemma b64_no_newline (s : string) : Py.replace Py.newline "" (Py.b64 s) = Py.b64 s.
Proof.
  induction s as [| a | a b | a b c rest IH] using string_triples.
  - reflexivity.
  - cbn [Py.b64 Py.replace]. rewrite !b64_char_not_newline. reflexivity.
  - cbn [Py.b64 Py.replace]. rewrite !b64_char_not_newline. reflexivity.
  - rewrite b64_triple. cbn [Py.replace]. rewrite !b64_char_not_newline, IH.
    reflexivity.
Qed.

(** Encoding splits at a multiple of three bytes. *)
Lemma b64_app (k : nat) (a b : string) :
  String.length a = 3 * k -> Py.b64 (a +:+ b) = Py.b64 a +:+ Py.b64 b.
Proof.
  revert a. induction k as [|k IH]; intros a Hlen.
  - destruct a; [reflexivity|discriminate].
  - destruct a as [|x [|y [|z a]]]; simpl in Hlen; try lia.
    rewrite !append_cons, !b64_triple, !append_cons. rewrite (IH a) by lia. reflexivity.
Qed.

Lemma take_drop (n : nat) (s : string) : Py.take n s +:+ Py.drop n s = s.
Proof.
  revert s. induction n as [|n IH]; intros [|c s]; try reflexivity.
  simpl. rewrite append_cons, IH. reflexivity.
Qed.

Lemma length_take (n : nat) (s : string) :
  n <= String.length s -> String.length (Py.take n s) = n.
Proof.
  revert s. induction n as [|n IH]; intros [|c s] Hn; simpl in *; try lia.
  rewrite IH by lia. reflexivity.
Qed.

Lemma take_all (n : nat) (s : string) :
  String.length s <= n -> Py.take n s = s /\ Py.drop n s = "".
Proof.
  revert s. induction n as [|n IH]; intros [|c s] Hn; simpl in *; try lia; auto.
  destruct (IH s) as [-> ->]; [lia|]. auto.
Qed.

Lemma length_drop (n : nat) (s : string) :
  String.length (Py.drop n s) = String.length s - n.
Proof.
  revert s. induction n as [|n IH]; intros [|c s]; simpl; try lia. apply IH.
Qed.

Lemma b64_take_drop (s : string) :
  Py.b64 (Py.take Py.MAXBINSIZE s) +:+ Py.b64 (Py.drop Py.MAXBINSIZE s) = Py.b64 s.
Proof.
  destruct (le_lt_dec Py.MAXBINSIZE (String.length s)) as [Hge|Hlt].
  - rewrite <- (b64_app 19); [rewrite take_drop; reflexivity|].
    rewrite length_take by exact Hge. reflexivity.
  - destruct (take_all Py.MAXBINSIZE s) as [-> ->]; [lia|]. apply append_nil_r.
Qed.

Lemma encodestring_loop_b64 (fuel : nat) (s : string) :
  String.length s <= fuel ->
  Py.replace Py.newline "" (Py.encodestring_loop fuel s) = Py.b64 s.
Proof.
  revert s. induction fuel as [|fuel IH]; intros s Hlen.
  - destruct s; [reflexivity|simpl in Hlen; lia].
  - destruct s as [|c s]; [reflexivity|].
    cbn [Py.encodestring_loop]. unfold Py.b2a_base64.
    rewrite !replace_app, b64_no_newline, IH.
    + change (Py.replace Py.newline "" (String Py.newline "")) with "".
      rewrite append_nil_r. apply b64_take_drop.
    + rewrite length_drop. simpl in *. unfold Py.MAXBINSIZE. lia.
Qed.

(** The codec with its line ends removed is plain base64. *)
Lemma encode_base64_b64 (s : string) :
  Py.replace Py.newline "" (Py.encode_base64 s) = Py.b64 s.
Proof. apply encodestring_loop_b64. lia. Qed.

(** ** The parser does not run out of fuel *)

Lemma skip_ws_length (s : string) : String.length (Py.skip_ws s) <= String.length s.
Proof.
  induction s as [|c s IH]; simpl; [lia|]. destruct (Py.is_ws c); simpl; lia.
Qed.

Lemma strip_prefix_length (p s r : string) :
  Py.strip_prefix p s = Some r -> String.length s = String.length p + String.length r.
Proof.
  revert s. induction p as [|a p IH]; intros s; simpl.
  - intros [= <-]. reflexivity.
  - destruct s as [|b s]; [discriminate|].
    destruct (Ascii.eqb a b); [|discriminate]. intros H. simpl. rewrite (IH s H).
    reflexivity.
Qed.

Lemma span_digits_length (s d r : string) :
  Py.span_digits s = (d, r) -> String.length r <= String.length s.
Proof.
  revert d r. induction s as [|c s IH]; simpl; intros d r.
  - intros [= <- <-]. simpl. lia.
  - destruct (Py.is_digit c).
    + destruct (Py.span_digits s) as [d' r'] eqn:Hs. intros [= <- <-].
      specialize (IH _ _ eq_refl). lia.
    + intros [= <- <-]. simpl. lia.
Qed.

Lemma match_integer_length (s lit r : string) :
  Py.match_integer s = Some (lit, r) -> String.length r < String.length s.
Proof.
  unfold Py.match_integer. intros H.
  repeat break_match; simplify_eq; simpl in *;
    repeat match goal with
           | H : Py.span_digits _ = _ |- _ => apply span_digits_length in H
           end; simpl in *; lia.
Qed.

Ltac use_span_digits :=
  repeat match goal with
         | H : Py.span_digits _ = _ |- _ => apply span_digits_length in H
         end.

Lemma match_frac_length (s f r : string) :
  Py.match_frac s = (f, r) -> String.length r <= String.length s.
Proof.
  unfold Py.match_frac. intros H.
  repeat break_match; simplify_eq; use_span_digits; simpl in *; lia.
Qed.

Lemma match_exp_length (s e r : string) :
  Py.match_exp s = (e, r) -> String.length r <= String.length s.
Proof.
  unfold Py.match_exp. intros H.
  repeat break_match; simplify_eq; use_span_digits; simpl in *; lia.
Qed.

Lemma match_number_length (s : string) (v : Py.json) (r : string) :
  Py.match_number s = Some (v, r) -> String.length r < String.length s.
Proof.
  unfold Py.match_number. intros H.
  destruct (Py.match_integer s) as [[lit r0]|] eqn:Hi; [|discriminate].
  destruct (Py.match_frac r0) as [f r1] eqn:Hf.
  destruct (Py.match_exp r1) as [e r2] eqn:He.
  apply match_integer_length in Hi. apply match_frac_length in Hf.
  apply match_exp_length in He.
  assert (r = r2) as -> by (destruct f, e; congruence). lia.
Qed.

Lemma scan_atom_length (s : string) (v : Py.json) (r : string) :
  Py.scan_atom s = Py.Scanned v r -> String.length r < String.length s.
Proof.
  unfold Py.scan_atom. intros H.
  repeat break_match; simplify_eq;
    repeat match goal with
           | H : Py.strip_prefix _ _ = Some _ |- _ => apply strip_prefix_length in H
           | H : Py.match_number _ = Some _ |- _ => apply match_number_length in H
           end; simpl in *; lia.
Qed.

Lemma scan_atom_total (s : string) : Py.scan_atom s <> Py.Exhausted.
Proof. unfold Py.scan_atom. repeat break_match; discriminate. Qed.

Lemma scanstring_loop_length (st : Py.sstate) (acc : list N) (s : string)
    (u : Py.unicode) (r : string) :
  Py.scanstring_loop st acc s = Py.Scanned u r -> String.length r < String.length s.
Proof.
  revert st acc. induction s as [|c s IH]; intros st acc; [discriminate|].
  cbn [Py.scanstring_loop]. intros H.
  repeat break_match; simplify_eq; simpl; try lia;
    match goal with
    | H : Py.scanstring_loop _ _ s = Py.Scanned _ _ |- _ => apply IH in H; lia
    end.
Qed.

Lemma scanstring_loop_total (st : Py.sstate) (acc : list N) (s : string) :
  Py.scanstring_loop st acc s <> Py.Exhausted.
Proof.
  revert st acc. induction s as [|c s IH]; intros st acc; [discriminate|].
  cbn [Py.scanstring_loop]. repeat break_match; try discriminate; apply IH.
Qed.

Lemma length_cons (c : ascii) (s : string) :
  String.length (String c s) = S (String.length s).
Proof. reflexivity. Qed.

(** What is left after whitespace and one more character. *)
Lemma skip_ws_cons (s : string) (c : ascii) (r : string) :
  Py.skip_ws s = String c r -> String.length r < String.length s.
Proof.
  intros H. pose proof (skip_ws_length s) as L. rewrite H, length_cons in L. lia.
Qed.

Lemma scan_consumes (fuel : nat) :
  (forall s v r, Py.scan_once fuel s = Py.Scanned v r ->
                 String.length r < String.length s) /\
  (forall d s v r, Py.object_pairs fuel d s = Py.Scanned v r ->
                   String.length r < String.length s) /\
  (forall acc s v r, Py.array_values fuel acc s = Py.Scanned v r ->
                     String.length r < String.length s).
Proof.
  induction fuel as [|fuel (IHv & IHo & IHa)]; [repeat split; discriminate|].
  split; [|split].
  - intros s v r. destruct s as [|c rest]; [discriminate|]. cbn [Py.scan_once].
    rewrite length_cons.
    destruct (Ascii.eqb c Py.dquote).
    { unfold Py.scanstring.
      destruct (Py.scanstring_loop (Py.SChars false) [] rest) eqn:Hs; simpl; try discriminate.
      intros [= <- <-]. apply scanstring_loop_length in Hs. lia. }
    destruct (Ascii.eqb c "{").
    { destruct (Py.skip_ws rest) as [|c1 r1] eqn:Hw; [discriminate|].
      apply skip_ws_cons in Hw.
      destruct (Ascii.eqb c1 "}"); [intros [= <- <-]; lia|].
      intros H. apply IHo in H. rewrite length_cons in H. lia. }
    destruct (Ascii.eqb c "[").
    { destruct (Py.skip_ws rest) as [|c1 r1] eqn:Hw; [discriminate|].
      apply skip_ws_cons in Hw.
      destruct (Ascii.eqb c1 "]"); [intros [= <- <-]; lia|].
      intros H. apply IHa in H. rewrite length_cons in H. lia. }
    intros H. apply scan_atom_length in H. rewrite length_cons in H. lia.
  - intros d s v r. destruct s as [|c r0]; [discriminate|]. cbn [Py.object_pairs].
    rewrite length_cons.
    destruct (Ascii.eqb c Py.dquote); [|discriminate].
    destruct (Py.scanstring r0) as [key r1| |] eqn:Hs; try discriminate.
    apply scanstring_loop_length in Hs.
    destruct (Py.skip_ws r1) as [|c2 r2] eqn:Hw1; [discriminate|].
    apply skip_ws_cons in Hw1.
    destruct (Ascii.eqb c2 ":"); [|discriminate].
    destruct (Py.scan_once fuel (Py.skip_ws r2)) as [v0 r3| |] eqn:Hv; try discriminate.
    apply IHv in Hv. pose proof (skip_ws_length r2) as L2.
    destruct (Py.skip_ws r3) as [|c3 r4] eqn:Hw3; [discriminate|].
    apply skip_ws_cons in Hw3.
    destruct (Ascii.eqb c3 "}"); [intros [= <- <-]; lia|].
    destruct (Ascii.eqb c3 ","); [|discriminate].
    intros H. apply IHo in H. pose proof (skip_ws_length r4) as L4. lia.
  - intros acc s v r. cbn [Py.array_values].
    destruct (Py.scan_once fuel s) as [v0 r0| |] eqn:Hv; try discriminate.
    apply IHv in Hv.
    destruct (Py.skip_ws r0) as [|c r1] eqn:Hw; [discriminate|].
    apply skip_ws_cons in Hw.
    destruct (Ascii.eqb c "]"); [intros [= <- <-]; lia|].
    destruct (Ascii.eqb c ","); [|discriminate].
    intros H. apply IHa in H. pose proof (skip_ws_length r1) as L1. lia.
Qed.

(** With two units of fuel for each byte of input, and one more, no
    scanner runs out of fuel. *)
Lemma scan_fuel (fuel : nat) :
  (forall s, 2 * String.length s + 1 <= fuel -> Py.scan_once fuel s <> Py.Exhausted) /\
  (forall d s, 2 * String.length s + 2 <= fuel ->
               Py.object_pairs fuel d s <> Py.Exhausted) /\
  (forall acc s, 2 * String.length s + 2 <= fuel ->
                 Py.array_values fuel acc s <> Py.Exhausted).
Proof.
  induction fuel as [|fuel (IHv & IHo & IHa)]; [repeat split; intros; lia|].
  split; [|split].
  - intros s Hf. destruct s as [|c rest]; [discriminate|]. cbn [Py.scan_once].
    rewrite length_cons in Hf.
    destruct (Ascii.eqb c Py.dquote).
    { unfold Py.scanstring.
      pose proof (scanstring_loop_total (Py.SChars false) [] rest) as Ht.
      destruct (Py.scanstring_loop (Py.SChars false) [] rest); simpl; congruence. }
    destruct (Ascii.eqb c "{").
    { destruct (Py.skip_ws rest) as [|c1 r1] eqn:Hw; [discriminate|].
      pose proof (skip_ws_length rest) as L. rewrite Hw in L.
      destruct (Ascii.eqb c1 "}"); [discriminate|]. apply IHo. lia. }
    destruct (Ascii.eqb c "[").
    { destruct (Py.skip_ws rest) as [|c1 r1] eqn:Hw; [discriminate|].
      pose proof (skip_ws_length rest) as L. rewrite Hw in L.
      destruct (Ascii.eqb c1 "]"); [discriminate|]. apply IHa. lia. }
    apply scan_atom_total.
  - intros d s Hf. destruct s as [|c r0]; [discriminate|]. cbn [Py.object_pairs].
    rewrite length_cons in Hf.
    destruct (Ascii.eqb c Py.dquote); [|discriminate].
    pose proof (scanstring_loop_total (Py.SChars false) [] r0) as Ht.
    destruct (Py.scanstring r0) as [key r1| |] eqn:Hs; try discriminate;
      [|unfold Py.scanstring in Hs; congruence].
    apply scanstring_loop_length in Hs.
    destruct (Py.skip_ws r1) as [|c2 r2] eqn:Hw1; [discriminate|].
    apply skip_ws_cons in Hw1.
    destruct (Ascii.eqb c2 ":"); [|discriminate].
    pose proof (skip_ws_length r2) as L2.
    pose proof (IHv (Py.skip_ws r2)) as Hv0.
    destruct (Py.scan_once fuel (Py.skip_ws r2)) as [v0 r3| |] eqn:Hv; try discriminate;
      [|exfalso; apply Hv0; [lia|reflexivity]].
    apply (proj1 (scan_consumes fuel)) in Hv.
    destruct (Py.skip_ws r3) as [|c3 r4] eqn:Hw3; [discriminate|].
    apply skip_ws_cons in Hw3.
    destruct (Ascii.eqb c3 "}"); [discriminate|].
    destruct (Ascii.eqb c3 ","); [|discriminate].
    apply IHo. pose proof (skip_ws_length r4) as L4. lia.
  - intros acc s Hf. cbn [Py.array_values].
    pose proof (IHv s) as Hv0.
    destruct (Py.scan_once fuel s) as [v0 r0| |] eqn:Hv; try discriminate;
      [|exfalso; apply Hv0; [lia|reflexivity]].
    apply (proj1 (scan_consumes fuel)) in Hv.
    destruct (Py.skip_ws r0) as [|c r1] eqn:Hw; [discriminate|].
    apply skip_ws_cons in Hw.
    destruct (Ascii.eqb c "]"); [discriminate|].
    destruct (Ascii.eqb c ","); [|discriminate].
    apply IHa. pose proof (skip_ws_length r1) as L1. lia.
Qed.

(** [loads] answers [None] only for input that is not one JSON value:
    its scanner never runs out of fuel. *)
Lemma loads_fuel (s : string) :
  Py.scan_once (S (2 * String.length s)) (Py.skip_ws s) <> Py.Exhausted.
Proof.
  apply (proj1 (scan_fuel _)). pose proof (skip_ws_length s). lia.
Qed.

Lemma loads_None (s : string) :
  Py.loads s = None ->
  Py.scan_once (S (2 * String.length s)) (Py.skip_ws s) = Py.Invalid \/
  exists v rest c r,
    Py.scan_once (S (2 * String.length s)) (Py.skip_ws s) = Py.Scanned v rest /\
    Py.skip_ws rest = String c r.
Proof.
  unfold Py.loads. pose proof (loads_fuel s) as Hf.
  destruct (Py.scan_once (S (2 * String.length s)) (Py.skip_ws s)) as [v rest| |];
    [|auto|congruence].
  destruct (Py.skip_ws rest) as [|c r] eqn:Hw; [discriminate|].
  intros _. right. exists v, rest, c, r. auto.
Qed.

(** ** The shape of a search *)

Section Search.

Context (rt : Runtime) (h : heap) (self : engine) (query : Py.unicode).

(** A search builds its request, opens it, and handles what comes back. *)
Lemma search_request (c : engine_class) :
  search c rt h self query =
    (url ← request c rt self query; handle c rt (fetch h self url)).
Proof.
  unfold request, fetch, handle, interpret.
  destruct c; simpl;
    unfold BingSearchEngine.search, YahooBOSSSearchEngine.search.
  - destruct (getitem_str (self_cred self) "type") as [type|e]; [|reflexivity].
    simpl. unfold bing_url, bing_items, bing_query, bing_service.
    rewrite ureplace_strip_quotes. reflexivity.
  - destruct (getitem_str (self_cred self) "key") as [key|e]; [|reflexivity].
    destruct (getitem_str (self_cred self) "secret") as [secret|e]; reflexivity.
Qed.

(** Once the response is there and its body read and decompressed, a search
    is [interpret] of its status code and content. *)
Lemma search_interpret (c : engine_class) (resp : response) (content : string) :
  exchange c rt h self query = Return resp ->
  content_of rt resp = Return content ->
  search c rt h self query = interpret c (getcode resp) content.
Proof.
  rewrite search_request. unfold exchange, content_of, handle.
  destruct (request c rt self query) as [url|e]; simpl; [|discriminate].
  intros ->. simpl. destruct (read resp) as [body|e]; simpl; [|discriminate].
  intros ->. reflexivity.
Qed.

(** Walking down present keys ends at the value [at_path] names. *)
Lemma results_of_at_path (c : engine_class) (res results : Py.json) :
  at_path (path c) res = Some results ->
  results_of c res =
    (rs ← iter results; mapM (fun result => getitem result (url_field c)) rs).
Proof.
  destruct c; simpl.
  - destruct res as [| | | | | |d]; try discriminate.
    destruct (d !! Py.u "d") as [v|] eqn:Hd; [|discriminate].
    destruct v as [| | | | | |d1]; try discriminate.
    destruct (d1 !! Py.u "results") as [v|] eqn:Hr; [|discriminate].
    intros [= ->]. unfold getitem at 2. rewrite Hd. simpl. rewrite Hr. reflexivity.
  - destruct res as [| | | | | |d]; try discriminate.
    destruct (d !! Py.u "bossresponse") as [v|] eqn:Hd; [|discriminate].
    destruct v as [| | | | | |d1]; try discriminate.
    destruct (d1 !! Py.u "web") as [v|] eqn:Hw; [|discriminate].
    destruct v as [| | | | | |d2]; try discriminate.
    destruct (d2 !! Py.u "results") as [v|] eqn:Hr; [|discriminate].
    intros [= ->]. unfold getitem at 3. rewrite Hd. simpl. rewrite Hw. simpl.
    rewrite Hr. reflexivity.
Qed.


(** The comprehension over well-formed entries collects their fields in
    order. *)
Lemma mapM_has_field (field : string) (entries values : list Py.json) :
  Forall2 (has_field field) entries values ->
  mapM (fun result => getitem result field) entries = Return values.
Proof.
  induction 1 as [|e v es vs [d [-> Hd]] _ IH]; simpl; [reflexivity|].
  rewrite Hd. simpl. rewrite IH. reflexivity.
Qed.

End Search.

(** ** Successful searches *)

(** C1. For every query, when the provider answers with status 200 and a
    body (after the gzip step) that parses as JSON and holds a list of N
    entries under the nested key of the engine ([d.results] for Bing,
    [bossresponse.web.results] for Yahoo! BOSS), each entry a dict with the
    URL field of the engine, [search] returns exactly the N values of that
    field, in the order of the entries. *)
Theorem search_returns_urls (c : engine_class) (rt : Runtime) (h : heap)
    (self : engine) (query : Py.unicode) (resp : response) (content : string)
    (res : Py.json) (entries urls : list Py.json) :
  exchange c rt h self query = Return resp ->
  content_of rt resp = Return content ->
  getcode resp = 200%Z ->
  Py.loads content = Some res ->
  at_path (path c) res = Some (Py.JList entries) ->
  Forall2 (has_field (url_field c)) entries urls ->
  search c rt h self query = Return urls /\ length urls = length entries.
Proof.
  intros Hx Hc Hcode Hloads Hpath Hentries. split.
  - rewrite (search_interpret rt h self query c resp content Hx Hc).
    unfold interpret. rewrite Hcode, Hloads. simpl.
    rewrite (results_of_at_path c res _ Hpath). simpl.
    apply mapM_has_field, Hentries.
  - symmetry. eapply Forall2_length, Hentries.
Qed.

Lemma search_returns_urls_witness :
  search Bing Mock.runtime (Mock.world 200 None Mock.bing_body) Mock.bing_engine
    (Py.u "hello world") = Return Mock.urls_ab /\
  search YahooBOSS Mock.runtime (Mock.world 200 (Some "gzip") (Mock.gzip Mock.yahoo_body))
    Mock.yahoo_engine (Py.u "hello world") = Return Mock.urls_ab.
Proof.
  split.
  - refine (proj1 (search_returns_urls Bing Mock.runtime _ _ _
             (Mock.reply 200 None Mock.bing_body) Mock.bing_body
             (Py.JDict {[ Py.u "d" := Py.JDict {[ Py.u "results" :=
                Py.JList [Py.JDict {[ Py.u "Url" := Py.JUnicode (Py.u "http://a") ]};
                          Py.JDict {[ Py.u "Url" := Py.JUnicode (Py.u "http://b") ]}] ]} ]})
             _ Mock.urls_ab _ _ _ _ _ _)).
    + reflexivity.
    + reflexivity.
    + reflexivity.
    + vm_compute. reflexivity.
    + vm_compute. reflexivity.
    + repeat constructor; eexists; (split; [reflexivity | vm_compute; reflexivity]).
  - refine (proj1 (search_returns_urls YahooBOSS Mock.runtime _ _ _
             (Mock.reply 200 (Some "gzip") (Mock.gzip Mock.yahoo_body)) Mock.yahoo_body
             (Py.JDict {[ Py.u "bossresponse" := Py.JDict {[ Py.u "web" :=
                Py.JDict {[ Py.u "results" :=
                Py.JList [Py.JDict {[ Py.u "url" := Py.JUnicode (Py.u "http://a") ]};
                          Py.JDict {[ Py.u "url" := Py.JUnicode (Py.u "http://b") ]}] ]} ]} ]})
             _ Mock.urls_ab _ _ _ _ _ _)).
    + reflexivity.
    + vm_compute. reflexivity.
    + reflexivity.
    + vm_compute. reflexivity.
    + vm_compute. reflexivity.
    + repeat constructor; eexists; (split; [reflexivity | vm_compute; reflexivity]).
Defined.




(** ** Failures *)

(** C3 (the code departs from it). A result entry without the URL field
    is not caught: the comprehension is outside the handler of [KeyError],
    so the search raises [KeyError], which is neither an empty list nor a
    [SearchQueryError]. *)
Theorem entry_without_url_raises :
  search Bing Mock.runtime
    (Mock.world 200 None (Py.dq "{'d':{'results':[{'Title':'x'}]}}"))
    Mock.bing_engine (Py.u "hello world") = Raise (KeyError "Url") /\
  search YahooBOSS Mock.runtime
    (Mock.world 200 None (Py.dq "{'bossresponse':{'web':{'results':[{'title':'x'}]}}}"))
    Mock.yahoo_engine (Py.u "hello world") = Raise (KeyError "url").
Proof. split; vm_compute; reflexivity. Qed.

(** The same in general: the first entry that is a dict without the field
    ends the search with [KeyError]. *)
Lemma entry_without_field (c : engine_class) (rt : Runtime) (h : heap)
    (self : engine) (query : Py.unicode) (resp : response) (content : string)
    (res : Py.json) (before after : list Py.json) (values : list Py.json)
    (d : gmap Py.unicode Py.json) :
  exchange c rt h self query = Return resp ->
  content_of rt resp = Return content ->
  getcode resp = 200%Z ->
  Py.loads content = Some res ->
  at_path (path c) res = Some (Py.JList (before ++ Py.JDict d :: after)) ->
  Forall2 (has_field (url_field c)) before values ->
  d !! Py.u (url_field c) = None ->
  search c rt h self query = Raise (KeyError (url_field c)).
Proof.
  intros Hx Hc Hcode Hloads Hpath Hbefore Hd.
  rewrite (search_interpret rt h self query c resp content Hx Hc).
  unfold interpret. rewrite Hcode, Hloads. simpl.
  rewrite (results_of_at_path c res _ Hpath). simpl.
  clear -Hbefore Hd.
  induction Hbefore as [|e v es vs [d' [-> Hd']] _ IH]; simpl.
  - rewrite Hd. reflexivity.
  - rewrite Hd'. simpl. rewrite IH. reflexivity.
Qed.

(** Other failures that are no [SearchQueryError]: a parsed response that
    is no dict, a body the gzip step cannot read, a credential that is
    not there, an exception of the transport that is neither [URLError]
    nor [socket.error]. *)
Example other_failures :
  search Bing Mock.runtime (Mock.world 200 None "[1]") Mock.bing_engine
    (Py.u "hello world") = Raise TypeError /\
  search Bing Mock.runtime (Mock.world 200 None (Py.dq "{'d':null}")) Mock.bing_engine
    (Py.u "hello world") = Raise TypeError /\
  search Bing Mock.runtime (Mock.world 200 (Some "gzip") "{}") Mock.bing_engine
    (Py.u "hello world") = Raise Mock.not_gzipped /\
  search Bing Mock.runtime (Mock.world 200 None "{}") Mock.yahoo_engine
    (Py.u "hello world") = Raise (KeyError "type").
Proof. repeat split; vm_compute; reflexivity. Qed.

(** A transport failure of class [URLError] or [socket.error] is wrapped,
    with the name of the provider before its text; any other exception of
    the transport passes through. *)
Lemma transport_error_wrapped (c : engine_class) (rt : Runtime) (text : string) :
  handle c rt (Raise (URLError text)) =
    Raise (SearchQueryError (name c +:+ " Error: " +:+ text)) /\
  handle c rt (Raise (socket_error text)) =
    Raise (SearchQueryError (name c +:+ " Error: " +:+ text)) /\
  (forall cls, handle c rt (Raise (Other cls text)) = Raise (Other cls text)).
Proof. split; [|split]; reflexivity. Qed.

Example unreachable_provider :
  search Bing Mock.runtime {[ 0 := Mock.unreachable ]} Mock.bing_engine
    (Py.u "hello world")
  = Raise (SearchQueryError "Bing Error: <urlopen error timed out>").
Proof. vm_compute. reflexivity. Qed.

(** C4, as amended. For every response with status 200 whose body (after
    the gzip step) is not valid JSON, [search] raises [SearchQueryError]
    with the fixed decode-failure message of the engine. *)
Theorem undecodable_body_raises (c : engine_class) (rt : Runtime) (h : heap)
    (self : engine) (query : Py.unicode) (resp : response) (content : string) :
  exchange c rt h self query = Return resp ->
  content_of rt resp = Return content ->
  getcode resp = 200%Z ->
  Py.loads content = None ->
  search c rt h self query = Raise (SearchQueryError (decode_error c)).
Proof.
  intros Hx Hc Hcode Hloads.
  rewrite (search_interpret rt h self query c resp content Hx Hc).
  unfold interpret. rewrite Hcode, Hloads. reflexivity.
Qed.

Lemma undecodable_body_raises_witness :
  search Bing Mock.runtime (Mock.world 200 None "<html>Bad gateway</html>")
    Mock.bing_engine (Py.u "hello world")
  = Raise (SearchQueryError "Bing Error: JSON could not be decoded") /\
  search YahooBOSS Mock.runtime (Mock.world 200 None "{'single': 'quotes'}")
    Mock.yahoo_engine (Py.u "hello world")
  = Raise (SearchQueryError "Yahoo! BOSS Error: JSON could not be decoded").
Proof.
  split.
  - refine (undecodable_body_raises Bing Mock.runtime _ _ _
             (Mock.reply 200 None "<html>Bad gateway</html>") _ _ _ _ _);
      [reflexivity | reflexivity | reflexivity | vm_compute; reflexivity].
  - refine (undecodable_body_raises YahooBOSS Mock.runtime _ _ _
             (Mock.reply 200 None "{'single': 'quotes'}") _ _ _ _ _);
      [reflexivity | reflexivity | reflexivity | vm_compute; reflexivity].
Defined.

(** C4, as stated, fails: the status is checked before the body is
    parsed, so a body that is not JSON under status 500 gives the
    status-code message, not the decode-failure message. *)
Lemma undecodable_body_status_500 :
  exchange Bing Mock.runtime (Mock.world 500 None "server error") Mock.bing_engine
    (Py.u "hello world") = Return (Mock.reply 500 None "server error") /\
  content_of Mock.runtime (Mock.reply 500 None "server error") = Return "server error" /\
  Py.loads "server error" = None /\
  search Bing Mock.runtime (Mock.world 500 None "server error") Mock.bing_engine
    (Py.u "hello world") <> Raise (SearchQueryError (decode_error Bing)).
Proof.
  repeat split; try reflexivity.
  vm_compute. discriminate.
Qed.

(** C5. For both engines, every response with a status code other than
    200 makes [search] raise [SearchQueryError] with a message that holds
    the status code in decimal and the body of the response (after the
    gzip step). *)
Theorem status_error_raised (c : engine_class) (rt : Runtime) (h : heap)
    (self : engine) (query : Py.unicode) (resp : response) (content : string) :
  exchange c rt h self query = Return resp ->
  content_of rt resp = Return content ->
  getcode resp <> 200%Z ->
  exists msg,
    search c rt h self query = Raise (SearchQueryError msg) /\
    msg = status_error c (getcode resp) content /\
    contains (Py.str_int (getcode resp)) msg = true /\
    contains content msg = true.
Proof.
  intros Hx Hc Hcode. exists (status_error c (getcode resp) content).
  split; [|split; [reflexivity|split]].
  - rewrite (search_interpret rt h self query c resp content Hx Hc).
    unfold interpret. apply Z.eqb_neq in Hcode. rewrite Hcode. reflexivity.
  - unfold status_error. rewrite <- append_assoc. apply contains_app.
  - unfold status_error.
    change (String Py.newline (content +:+ "'"))
      with (String Py.newline "" +:+ content +:+ "'").
    rewrite <- !append_assoc. rewrite (append_assoc _ content). apply contains_app.
Qed.

Lemma status_error_raised_witness :
  exists msg,
    search Bing Mock.runtime (Mock.world 500 None "server error") Mock.bing_engine
      (Py.u "hello world") = Raise (SearchQueryError msg) /\
    msg = "Bing Error: got response code '500':" +:+ String Py.newline "server error'" /\
    contains "500" msg = true /\
    contains "server error" msg = true.
Proof.
  refine (status_error_raised Bing Mock.runtime _ _ _
            (Mock.reply 500 None "server error") "server error" _ _ _);
    [reflexivity | reflexivity | vm_compute; discriminate].
Defined.

(** ** The gzip step *)

(** C9. For both engines, a response that declares [Content-Encoding: gzip]
    and whose body is the gzip compression of some content is processed as a
    response without that declaration carrying the content itself: with the
    same status code, the two searches end the same way (the same status
    check, the same parse, the same results or error). *)
Theorem gzip_transparent (c : engine_class) (rt : Runtime) (h1 h2 : heap)
    (self : engine) (query : Py.unicode) (r1 r2 : response) (body content : string) :
  exchange c rt h1 self query = Return r1 ->
  exchange c rt h2 self query = Return r2 ->
  headers_get r1 "Content-Encoding" = Some "gzip" ->
  read r1 = Return body ->
  gunzip rt body = Return content ->
  headers_get r2 "Content-Encoding" <> Some "gzip" ->
  read r2 = Return content ->
  getcode r1 = getcode r2 ->
  search c rt h1 self query = search c rt h2 self query /\
  search c rt h2 self query = interpret c (getcode r2) content.
Proof.
  intros Hx1 Hx2 Hgz Hread1 Hgunzip Hplain Hread2 Hcode.
  assert (Hc1 : content_of rt r1 = Return content).
  { unfold content_of, is_gzip. rewrite Hread1, Hgz. simpl. exact Hgunzip. }
  assert (Hc2 : content_of rt r2 = Return content).
  { unfold content_of, is_gzip. rewrite Hread2. simpl.
    destruct (headers_get r2 "Content-Encoding") as [v|]; [|reflexivity].
    destruct (String.eqb_spec v "gzip") as [->|_]; [congruence|reflexivity]. }
  rewrite (search_interpret rt h1 self query c r1 content Hx1 Hc1).
  rewrite (search_interpret rt h2 self query c r2 content Hx2 Hc2).
  rewrite Hcode. split; reflexivity.
Qed.

Lemma gzip_transparent_witness :
  search YahooBOSS Mock.runtime (Mock.world 200 (Some "gzip") (Mock.gzip Mock.yahoo_body))
    Mock.yahoo_engine (Py.u "hello world")
  = search YahooBOSS Mock.runtime (Mock.world 200 None Mock.yahoo_body)
      Mock.yahoo_engine (Py.u "hello world") /\
  search YahooBOSS Mock.runtime (Mock.world 200 None Mock.yahoo_body)
      Mock.yahoo_engine (Py.u "hello world")
  = interpret YahooBOSS 200 Mock.yahoo_body.
Proof.
  refine (gzip_transparent YahooBOSS Mock.runtime _ _ _ _
            (Mock.reply 200 (Some "gzip") (Mock.gzip Mock.yahoo_body))
            (Mock.reply 200 None Mock.yahoo_body)
            (Mock.gzip Mock.yahoo_body) Mock.yahoo_body _ _ _ _ _ _ _ _);
    [reflexivity | reflexivity | reflexivity | reflexivity
    | vm_compute; reflexivity | discriminate | reflexivity | reflexivity].
Defined.

(** ** Requests *)

Lemma bing_items_perm (rt : Runtime) (q : Py.unicode) :
  Permutation (iteritems rt (list_to_map (bing_items q) : gmap string string))
              (bing_items q).
Proof.
  rewrite iteritems_perm. apply map_to_list_to_map.
  apply (bool_decide_unpack _). vm_compute. reflexivity.
Qed.

(** C6. For every query, the Bing engine requests the URL made of the API
    path, with sub-path [SearchWeb] exactly when the credential [type] is
    [searchweb] and [Search] otherwise, and of the form-encoded parameters
    joined by [&]; among the seven parameters the result count [$top] is
    5 and [Query] is the query text without its double quotes, encoded as
    UTF-8 and wrapped in quotes. *)
Theorem bing_request (rt : Runtime) (h : heap) (self : engine) (query : Py.unicode)
    (type : string) :
  self_cred self !! "type" = Some type ->
  exists (service : string) (items : list (string * string)),
    (service = "SearchWeb" <-> type = "searchweb") /\
    (service = "Search" <-> type <> "searchweb") /\
    Permutation items (bing_items query) /\
    In ("$top", "5") items /\
    In ("Query", "'" +:+ String Py.dquote
                   (Py.encode_utf8 (strip_quotes query) +:+ String Py.dquote "'")) items /\
    search Bing rt h self query =
      handle Bing rt
        (fetch h self
           ("https://api.datamarket.azure.com/Bing/" +:+ service +:+ "/Web?" +:+
            Py.join "&"
              (map (fun kv => form_encode (fst kv) +:+ "=" +:+ form_encode (snd kv))
                   items))).
Proof.
  intros Htype.
  exists (bing_service type),
         (iteritems rt (list_to_map (bing_items query) : gmap string string)).
  pose proof (bing_items_perm rt query) as Hperm.
  split; [|split; [|split; [exact Hperm|split; [|split]]]].
  - unfold bing_service.
    destruct (String.eqb_spec type "searchweb") as [->|Hne];
      (split; [reflexivity || discriminate | reflexivity || contradiction]).
  - unfold bing_service.
    destruct (String.eqb_spec type "searchweb") as [->|Hne].
    + split; [discriminate|intros Hne; contradiction].
    + split; [intros _; exact Hne|reflexivity].
  - eapply Permutation_in; [symmetry; exact Hperm|]. simpl. tauto.
  - eapply Permutation_in; [symmetry; exact Hperm|]. simpl. tauto.
  - rewrite search_request. unfold request, getitem_str. rewrite Htype. simpl.
    unfold bing_url. rewrite urlencode_form_encode, !append_assoc. reflexivity.
Qed.

Lemma bing_request_witness :
  exists (service : string) (items : list (string * string)),
    (service = "SearchWeb" <-> "searchweb" = "searchweb") /\
    (service = "Search" <-> "searchweb" <> "searchweb") /\
    Permutation items (bing_items (Py.u (Py.dq "say 'hello' world"))) /\
    In ("$top", "5") items /\
    In ("Query", "'" +:+ String Py.dquote
                   (Py.encode_utf8 (strip_quotes (Py.u (Py.dq "say 'hello' world")))
                      +:+ String Py.dquote "'")) items /\
    search Bing Mock.runtime (Mock.world 200 None Mock.bing_body) Mock.bing_engine
      (Py.u (Py.dq "say 'hello' world")) =
      handle Bing Mock.runtime
        (fetch (Mock.world 200 None Mock.bing_body) Mock.bing_engine
           ("https://api.datamarket.azure.com/Bing/" +:+ service +:+ "/Web?" +:+
            Py.join "&"
              (map (fun kv => form_encode (fst kv) +:+ "=" +:+ form_encode (snd kv))
                   items))).
Proof.
  refine (bing_request Mock.runtime (Mock.world 200 None Mock.bing_body) Mock.bing_engine
            (Py.u (Py.dq "say 'hello' world")) "searchweb" _).
  reflexivity.
Defined.

Example bing_url_examples :
  bing_url Mock.runtime "searchweb" (Py.u (Py.dq "say 'hello' world")) =
  "https://api.datamarket.azure.com/Bing/SearchWeb/Web?Options=%27DisableLocationDetection%27&WebSearchOptions=%27DisableHostCollapsing%2BDisableQueryAlterations%27&Market=%27en-US%27&Query=%27%22say+hello+world%22%27&Adult=%27Off%27&%24format=json&%24top=5"
  /\
  bing_url Mock.runtime "SearchWeb" [233; 8364]%N =
  "https://api.datamarket.azure.com/Bing/Search/Web?Options=%27DisableLocationDetection%27&WebSearchOptions=%27DisableHostCollapsing%2BDisableQueryAlterations%27&Market=%27en-US%27&Query=%27%22%C3%A9%E2%82%AC%22%27&Adult=%27Off%27&%24format=json&%24top=5".
Proof. split; vm_compute; reflexivity. Qed.

(** C10. Two queries that are equal once their double quotes are removed
    make the Bing engine build the same request URL, byte for byte, and
    so, with the same transport, end in the same result or error. *)
Theorem bing_quotes_ignored (rt : Runtime) (h : heap) (self : engine)
    (q1 q2 : Py.unicode) :
  strip_quotes q1 = strip_quotes q2 ->
  (forall type : string, bing_url rt type q1 = bing_url rt type q2) /\
  request Bing rt self q1 = request Bing rt self q2 /\
  search Bing rt h self q1 = search Bing rt h self q2.
Proof.
  intros Hq.
  assert (Hu : forall type, bing_url rt type q1 = bing_url rt type q2).
  { intros type. unfold bing_url, bing_items, bing_query. rewrite Hq. reflexivity. }
  assert (Hr : request Bing rt self q1 = request Bing rt self q2).
  { unfold request. destruct (getitem_str (self_cred self) "type"); simpl;
      [rewrite Hu|]; reflexivity. }
  split; [exact Hu|]. split; [exact Hr|]. rewrite !search_request, Hr. reflexivity.
Qed.

Lemma bing_quotes_ignored_witness :
  (forall type : string,
     bing_url Mock.runtime type (Py.u (Py.dq "say 'hello' world")) =
     bing_url Mock.runtime type (Py.u (Py.dq "'say hello world"))) /\
  request Bing Mock.runtime Mock.bing_engine (Py.u (Py.dq "say 'hello' world")) =
  request Bing Mock.runtime Mock.bing_engine (Py.u (Py.dq "'say hello world")) /\
  search Bing Mock.runtime (Mock.world 200 None Mock.bing_body) Mock.bing_engine
    (Py.u (Py.dq "say 'hello' world")) =
  search Bing Mock.runtime (Mock.world 200 None Mock.bing_body) Mock.bing_engine
    (Py.u (Py.dq "'say hello world")).
Proof.
  refine (bing_quotes_ignored Mock.runtime _ Mock.bing_engine _ _ _).
  vm_compute. reflexivity.
Defined.

Lemma encode_utf8_app (a b : Py.unicode) :
  Py.encode_utf8 (a ++ b) = Py.encode_utf8 a +:+ Py.encode_utf8 b.
Proof.
  induction a as [|c a IH]; [reflexivity|]. simpl. rewrite IH, append_assoc. reflexivity.
Qed.

Lemma percent_encode_app (a b : string) :
  percent_encode (a +:+ b) = percent_encode a +:+ percent_encode b.
Proof. unfold percent_encode. rewrite chars_app, map_app, flat_app. reflexivity. Qed.

Lemma escape_clean (c : ascii) :
  Py.contains_char " " (escape c) = false /\ Py.contains_char "+" (escape c) = false.
Proof. destruct c as [[] [] [] [] [] [] [] []]; split; reflexivity. Qed.

Lemma percent_encode_clean (s : string) :
  Py.contains_char " " (percent_encode s) = false /\
  Py.contains_char "+" (percent_encode s) = false.
Proof.
  unfold percent_encode. induction s as [|c s [IH1 IH2]]; [split; reflexivity|].
  simpl. rewrite !contains_char_app, IH1, IH2.
  destruct (escape_clean c) as [-> ->]. split; reflexivity.
Qed.

(** C7. [_build_url] gives [base], a question mark, and the pairs
    [key=value] of the parameters joined by [&], where keys and values are
    encoded as UTF-8 and percent-encoded with no safe character beyond the
    unreserved ones (so [/] is escaped too); the encoding holds no [+] and
    no space, and each space of a key or value is written [%20]. *)
Theorem build_url_percent_encodes (rt : Runtime) (base : string)
    (params : gmap Py.unicode Py.unicode) :
  exists items,
    Permutation items (map_to_list params) /\
    YahooBOSSSearchEngine._build_url rt base params =
      base +:+ "?" +:+
        Py.join "&"
          (map (fun kv => percent_encode (Py.encode_utf8 (fst kv)) +:+ "=" +:+
                          percent_encode (Py.encode_utf8 (snd kv))) items) /\
    (forall s : Py.unicode,
       YahooBOSSSearchEngine.enc s = percent_encode (Py.encode_utf8 s) /\
       Py.contains_char "+" (YahooBOSSSearchEngine.enc s) = false /\
       Py.contains_char " " (YahooBOSSSearchEngine.enc s) = false) /\
    (forall a b : Py.unicode,
       YahooBOSSSearchEngine.enc (a ++ 32%N :: b) =
         YahooBOSSSearchEngine.enc a +:+ "%20" +:+ YahooBOSSSearchEngine.enc b) /\
    YahooBOSSSearchEngine.enc (Py.u "/") = "%2F".
Proof.
  exists (iteritems rt params). split; [apply iteritems_perm|].
  split; [|split; [|split]].
  - unfold YahooBOSSSearchEngine._build_url. do 3 f_equal.
    apply map_ext. intros [k v]. unfold YahooBOSSSearchEngine.enc. simpl.
    rewrite !quote_percent_encode. reflexivity.
  - intros s. unfold YahooBOSSSearchEngine.enc. rewrite quote_percent_encode.
    destruct (percent_encode_clean (Py.encode_utf8 s)) as [Hsp Hplus]. auto.
  - intros a b. unfold YahooBOSSSearchEngine.enc. rewrite !quote_percent_encode.
    rewrite encode_utf8_app, percent_encode_app. reflexivity.
  - reflexivity.
Qed.

Example build_url_example :
  YahooBOSSSearchEngine._build_url Mock.runtime "http://host/path"
    {[ Py.u "q" := Py.u "a b+c/d" ++ [233%N] ]}
  = "http://host/path?q=a%20b%2Bc%2Fd%C3%A9".
Proof. vm_compute. reflexivity. Qed.

(** ** Construction *)

Lemma alter_present (f : opener -> opener) (l : loc) (h : heap) (o : opener) :
  h !! l = Some o -> alter f l h = <[l := f o]> h.
Proof.
  intros Hl. apply map_eq. intros i. destruct (decide (l = i)) as [<-|Hne].
  - rewrite lookup_alter_eq, lookup_insert_eq, Hl. reflexivity.
  - rewrite lookup_alter_ne, lookup_insert_ne by exact Hne. reflexivity.
Qed.

(** C8. Constructing the Bing engine appends one header, [Authorization]
    with [Basic] and the base64 text of [key:key], to the default headers
    of the shared opener and changes nothing else: the headers that were
    there, what the opener does, and every other object stay as they were.
    Constructing the Yahoo! BOSS engine stores the credentials and the
    opener and leaves the heap as it was. *)
Theorem construction_effect (cred : gmap string string) (l : loc) (h : heap)
    (o : opener) (key : string) :
  cred !! "key" = Some key ->
  h !! l = Some o ->
  BingSearchEngine.__init__ cred l h =
    (Return {| self_cred := cred; self_opener := l |},
     <[l := {| addheaders := addheaders o ++
                 [("Authorization", "Basic " +:+ Py.b64 (key +:+ ":" +:+ key))];
               open := open o |}]> h) /\
  (forall l', l' <> l -> snd (BingSearchEngine.__init__ cred l h) !! l' = h !! l') /\
  YahooBOSSSearchEngine.__init__ cred l h =
    (Return {| self_cred := cred; self_opener := l |}, h).
Proof.
  intros Hkey Hl.
  assert (Hinit : BingSearchEngine.__init__ cred l h =
    (Return {| self_cred := cred; self_opener := l |},
     <[l := {| addheaders := addheaders o ++
                 [("Authorization", "Basic " +:+ Py.b64 (key +:+ ":" +:+ key))];
               open := open o |}]> h)).
  { unfold BingSearchEngine.__init__, _BaseSearchEngine.__init__, getitem_str. simpl.
    rewrite Hkey, encode_base64_b64, (alter_present _ l h o Hl). reflexivity. }
  split; [exact Hinit|]. split; [|reflexivity].
  intros l' Hne. rewrite Hinit. simpl. apply lookup_insert_ne. congruence.
Qed.

Lemma construction_effect_witness :
  BingSearchEngine.__init__ {[ "key" := "k3y"; "type" := "searchweb" ]} 0
    (Mock.world 200 None Mock.bing_body) =
    (Return Mock.bing_engine,
     <[0 := {| addheaders := [("User-agent", "EarwigBot")] ++
                 [("Authorization", "Basic " +:+ Py.b64 ("k3y" +:+ ":" +:+ "k3y"))];
               open := open (Mock.provider 200 None Mock.bing_body) |}]>
       (Mock.world 200 None Mock.bing_body)) /\
  (forall l', l' <> 0 ->
     snd (BingSearchEngine.__init__ {[ "key" := "k3y"; "type" := "searchweb" ]} 0
            (Mock.world 200 None Mock.bing_body)) !! l' =
     Mock.world 200 None Mock.bing_body !! l') /\
  YahooBOSSSearchEngine.__init__ {[ "key" := "k3y"; "type" := "searchweb" ]} 0
    (Mock.world 200 None Mock.bing_body) =
    (Return Mock.bing_engine, Mock.world 200 None Mock.bing_body).
Proof.
  refine (construction_effect {[ "key" := "k3y"; "type" := "searchweb" ]} 0
            (Mock.world 200 None Mock.bing_body)
            (Mock.provider 200 None Mock.bing_body) "k3y" _ _);
    reflexivity.
Defined.

Example authorization_header :
  addheaders (snd (BingSearchEngine.__init__ {[ "key" := "k3y" ]} 0
                     {[ 0 := Mock.unreachable ]}) !!! 0)
  = [("Authorization", "Basic azN5OmszeQ==")].
Proof. vm_compute. reflexivity. Qed.

(** ** More about searches *)

(** X1. An exception of the transport, raised by [open] or by [read], ends
    the search: a [URLError] or a [socket.error] as a [SearchQueryError]
    with the name of the provider before its text, any other exception as
    it is. *)
Theorem transport_failure (c : engine_class) (rt : Runtime) (h : gmap nat opener)
    (self : engine) (query : Py.unicode) (url : string) (e : exception) :
  request c rt self query = Return url ->
  fetch h self url = Raise e \/
    (exists resp, fetch h self url = Return resp /\ read resp = Raise e) ->
  search c rt h self query = Raise (wrapped c e).
Proof.
  intros Hreq Hfail. rewrite search_request, Hreq. simpl. unfold handle.
  destruct Hfail as [->|(resp & -> & Hread)]; simpl; [|rewrite Hread; simpl];
    destruct e; reflexivity.
Qed.

Lemma transport_failure_witness :
  search Bing Mock.runtime {[ 0 := Mock.unreachable ]} Mock.bing_engine (Py.u "hello world")
  = Raise (SearchQueryError "Bing Error: <urlopen error timed out>") /\
  search YahooBOSS Mock.runtime {[ 0 := Scene.broken_read ]} Mock.yahoo_engine
    (Py.u "hello world")
  = Raise (SearchQueryError "Yahoo! BOSS Error: [Errno 104] Connection reset by peer").
Proof.
  split.
  - refine (transport_failure Bing Mock.runtime _ _ _
              (bing_url Mock.runtime "searchweb" (Py.u "hello world"))
              (URLError "<urlopen error timed out>") _ _);
      [reflexivity | left; reflexivity].
  - refine (transport_failure YahooBOSS Mock.runtime _ _ _
              (yahoo_url Mock.runtime "k3y" "s3cret" (Py.u "hello world"))
              (socket_error "[Errno 104] Connection reset by peer") _ _);
      [reflexivity | right; eexists; split; reflexivity].
Defined.

(** X2. A search reads its credentials first, [type] for Bing, [key] and
    then [secret] for Yahoo! BOSS: with one of them missing it raises
    [KeyError] for the first missing name, whatever the transport would
    answer. *)
Theorem missing_credential (c : engine_class) (rt : Runtime) (h : gmap nat opener)
    (self : engine) (query : Py.unicode) (k : string) :
  first_missing c (self_cred self) = Some k ->
  search c rt h self query = Raise (KeyError k).
Proof.
  rewrite search_request. unfold first_missing, request, getitem_str.
  destruct c; simpl.
  - case_bool_decide as Ht; [|discriminate]. intros [= <-]. rewrite Ht. reflexivity.
  - case_bool_decide as Hk.
    + intros [= <-]. rewrite Hk. reflexivity.
    + case_bool_decide as Hs; [|discriminate]. intros [= <-].
      destruct (self_cred self !! "key") as [key|]; [|contradiction].
      simpl. rewrite Hs. reflexivity.
Qed.

Lemma missing_credential_witness :
  search Bing Mock.runtime (Mock.world 200 None Mock.bing_body) Mock.yahoo_engine
    (Py.u "hello world") = Raise (KeyError "type") /\
  search YahooBOSS Mock.runtime (Mock.world 200 None Mock.yahoo_body)
    {| self_cred := {[ "secret" := "s3cret" ]}; self_opener := 0 |}
    (Py.u "hello world") = Raise (KeyError "key") /\
  search YahooBOSS Mock.runtime (Mock.world 200 None Mock.yahoo_body) Mock.bing_engine
    (Py.u "hello world") = Raise (KeyError "secret").
Proof.
  split; [|split].
  - refine (missing_credential Bing Mock.runtime _ Mock.yahoo_engine _ "type" _).
    vm_compute. reflexivity.
  - refine (missing_credential YahooBOSS Mock.runtime _
              {| self_cred := {[ "secret" := "s3cret" ]}; self_opener := 0 |} _ "key" _).
    vm_compute. reflexivity.
  - refine (missing_credential YahooBOSS Mock.runtime _ Mock.bing_engine _ "secret" _).
    vm_compute. reflexivity.
Defined.

(** X3. The gzip step comes before the status check and stands outside
    every handler: when a response declares gzip and its body cannot be
    decompressed, the search raises the exception of the decompressor as it
    is, whatever the status code. *)
Theorem gzip_failure (c : engine_class) (rt : Runtime) (h : gmap nat opener)
    (self : engine) (query : Py.unicode) (resp : response) (body : string)
    (e : exception) :
  exchange c rt h self query = Return resp ->
  read resp = Return body ->
  headers_get resp "Content-Encoding" = Some "gzip" ->
  gunzip rt body = Raise e ->
  search c rt h self query = Raise e.
Proof.
  intros Hx Hread Hgz He. rewrite search_request. unfold exchange in Hx.
  destruct (request c rt self query) as [url|e0]; simpl in *; [|discriminate].
  rewrite Hx. unfold handle, is_gzip. simpl. rewrite Hread. simpl.
  rewrite Hgz. simpl. rewrite He. reflexivity.
Qed.

Lemma gzip_failure_witness :
  search Bing Mock.runtime (Mock.world 500 (Some "gzip") "server error") Mock.bing_engine
    (Py.u "hello world") = Raise Mock.not_gzipped.
Proof.
  refine (gzip_failure Bing Mock.runtime _ _ _
            (Mock.reply 500 (Some "gzip") "server error") "server error" _ _ _ _ _);
    reflexivity.
Defined.

(** X4. A parsed response with a value that is no dict where a key of the
    path is to be looked up (a list at the top, [null] under [d]) is not
    caught by the handler of [KeyError]: the search raises [TypeError]. *)
Theorem non_dict_response (c : engine_class) (rt : Runtime) (h : gmap nat opener)
    (self : engine) (query : Py.unicode) (resp : response) (content : string)
    (res : Py.json) :
  exchange c rt h self query = Return resp ->
  content_of rt resp = Return content ->
  getcode resp = 200%Z ->
  Py.loads content = Some res ->
  blocked (path c) res = true ->
  search c rt h self query = Raise TypeError.
Proof.
  intros Hx Hc Hcode Hloads Hb.
  rewrite (search_interpret rt h self query c resp content Hx Hc).
  unfold interpret. rewrite Hcode, Hloads. simpl. clear -Hb.
  destruct c; simpl in *.
  - destruct res as [| | | | | |d]; try reflexivity. simpl.
    destruct (d !! Py.u "d") as [v|]; [|discriminate]. simpl.
    destruct v as [| | | | | |d1]; try reflexivity. simpl.
    destruct (d1 !! Py.u "results"); discriminate.
  - destruct res as [| | | | | |d]; try reflexivity. simpl.
    destruct (d !! Py.u "bossresponse") as [v|]; [|discriminate]. simpl.
    destruct v as [| | | | | |d1]; try reflexivity. simpl.
    destruct (d1 !! Py.u "web") as [v|]; [|discriminate]. simpl.
    destruct v as [| | | | | |d2]; try reflexivity. simpl.
    destruct (d2 !! Py.u "results"); discriminate.
Qed.

Lemma non_dict_response_witness :
  search Bing Mock.runtime (Mock.world 200 None (Py.dq "{'d':null}")) Mock.bing_engine
    (Py.u "hello world") = Raise TypeError /\
  search YahooBOSS Mock.runtime (Mock.world 200 None "[]") Mock.yahoo_engine
    (Py.u "hello world") = Raise TypeError.
Proof.
  split.
  - refine (non_dict_response Bing Mock.runtime _ _ _
              (Mock.reply 200 None (Py.dq "{'d':null}")) _
              (Py.JDict {[ Py.u "d" := Py.JNone ]}) _ _ _ _ _);
      [reflexivity | reflexivity | reflexivity | vm_compute; reflexivity
      | vm_compute; reflexivity].
  - refine (non_dict_response YahooBOSS Mock.runtime _ _ _
              (Mock.reply 200 None "[]") _ (Py.JList []) _ _ _ _ _);
      [reflexivity | reflexivity | reflexivity | vm_compute; reflexivity
      | vm_compute; reflexivity].
Defined.

(** X5. One bad entry loses the whole list: when the entries before it
    are well formed, the first entry that is a dict without the URL field
    ends the search with [KeyError], and the first entry that is no dict
    ends it with [TypeError]; the URLs already collected are not
    returned. *)
Theorem first_bad_entry (c : engine_class) (rt : Runtime) (h : gmap nat opener)
    (self : engine) (query : Py.unicode) (resp : response) (content : string)
    (res bad : Py.json) (before after values : list Py.json) (e : exception) :
  exchange c rt h self query = Return resp ->
  content_of rt resp = Return content ->
  getcode resp = 200%Z ->
  Py.loads content = Some res ->
  at_path (path c) res = Some (Py.JList (before ++ bad :: after)) ->
  Forall2 (has_field (url_field c)) before values ->
  entry_error (url_field c) bad = Some e ->
  search c rt h self query = Raise e.
Proof.
  intros Hx Hc Hcode Hloads Hpath Hbefore Hbad.
  rewrite (search_interpret rt h self query c resp content Hx Hc).
  unfold interpret. rewrite Hcode, Hloads. simpl.
  rewrite (results_of_at_path c res _ Hpath). simpl.
  clear -Hbefore Hbad.
  induction Hbefore as [|x v xs vs [d' [-> Hd']] _ IH]; simpl.
  - unfold entry_error in Hbad. destruct bad as [| | | | | |d]; simpl;
      try (injection Hbad as <-; reflexivity).
    destruct (d !! Py.u (url_field c)); [discriminate|].
    injection Hbad as <-. reflexivity.
  - rewrite Hd'. simpl. rewrite IH. reflexivity.
Qed.

Lemma first_bad_entry_witness :
  search Bing Mock.runtime
    (Mock.world 200 None (Py.dq "{'d':{'results':[{'Url':'http://a'},{'Title':'b'}]}}"))
    Mock.bing_engine (Py.u "hello world") = Raise (KeyError "Url") /\
  search YahooBOSS Mock.runtime
    (Mock.world 200 None (Py.dq "{'bossresponse':{'web':{'results':[{'url':'http://a'},7]}}}"))
    Mock.yahoo_engine (Py.u "hello world") = Raise TypeError.
Proof.
  split.
  - refine (first_bad_entry Bing Mock.runtime _ _ _
              (Mock.reply 200 None
                 (Py.dq "{'d':{'results':[{'Url':'http://a'},{'Title':'b'}]}}")) _
              (Py.JDict {[ Py.u "d" := Py.JDict {[ Py.u "results" :=
                 Py.JList [Py.JDict {[ Py.u "Url" := Py.JUnicode (Py.u "http://a") ]};
                           Py.JDict {[ Py.u "Title" := Py.JUnicode (Py.u "b") ]}] ]} ]})
              (Py.JDict {[ Py.u "Title" := Py.JUnicode (Py.u "b") ]})
              [Py.JDict {[ Py.u "Url" := Py.JUnicode (Py.u "http://a") ]}] []
              [Py.JUnicode (Py.u "http://a")] _ _ _ _ _ _ _ _);
      [reflexivity | reflexivity | reflexivity | vm_compute; reflexivity
      | vm_compute; reflexivity
      | repeat constructor; eexists; (split; [reflexivity | vm_compute; reflexivity])
      | vm_compute; reflexivity].
  - refine (first_bad_entry YahooBOSS Mock.runtime _ _ _
              (Mock.reply 200 None
                 (Py.dq "{'bossresponse':{'web':{'results':[{'url':'http://a'},7]}}}")) _
              (Py.JDict {[ Py.u "bossresponse" := Py.JDict {[ Py.u "web" :=
                 Py.JDict {[ Py.u "results" :=
                 Py.JList [Py.JDict {[ Py.u "url" := Py.JUnicode (Py.u "http://a") ]};
                           Py.JInt 7] ]} ]} ]})
              (Py.JInt 7)
              [Py.JDict {[ Py.u "url" := Py.JUnicode (Py.u "http://a") ]}] []
              [Py.JUnicode (Py.u "http://a")] _ _ _ _ _ _ _ _);
      [reflexivity | reflexivity | reflexivity | vm_compute; reflexivity
      | vm_compute; reflexivity
      | repeat constructor; eexists; (split; [reflexivity | vm_compute; reflexivity])
      | vm_compute; reflexivity].
Defined.

(** X6. When the value under the last key is no list: a number, a boolean
    or [null] cannot be iterated, and the keys of a dict and the characters
    of a string cannot be indexed by the URL field, so the search raises
    [TypeError]; only an empty dict or an empty string gives no results. *)
Theorem results_not_a_list (c : engine_class) (rt : Runtime) (h : gmap nat opener)
    (self : engine) (query : Py.unicode) (resp : response) (content : string)
    (res results : Py.json) :
  exchange c rt h self query = Return resp ->
  content_of rt resp = Return content ->
  getcode resp = 200%Z ->
  Py.loads content = Some res ->
  at_path (path c) res = Some results ->
  (forall l, results <> Py.JList l) ->
  search c rt h self query =
    if no_elements results then Return [] else Raise TypeError.
Proof.
  intros Hx Hc Hcode Hloads Hpath Hl.
  rewrite (search_interpret rt h self query c resp content Hx Hc).
  unfold interpret. rewrite Hcode, Hloads. simpl.
  rewrite (results_of_at_path c res _ Hpath). clear -Hl.
  destruct results as [| | | |s|l|d]; simpl; try reflexivity.
  - destruct s as [|ch s]; reflexivity.
  - exfalso. apply (Hl l). reflexivity.
  - rewrite <- length_map_to_list.
    destruct (map_to_list d) as [|[k v] kvs]; reflexivity.
Qed.

Lemma results_not_a_list_witness :
  search Bing Mock.runtime (Mock.world 200 None (Py.dq "{'d':{'results':{'0':{'Url':'x'}}}}"))
    Mock.bing_engine (Py.u "hello world") = Raise TypeError /\
  search Bing Mock.runtime (Mock.world 200 None (Py.dq "{'d':{'results':''}}"))
    Mock.bing_engine (Py.u "hello world") = Return [].
Proof.
  split.
  - refine (results_not_a_list Bing Mock.runtime _ _ _
              (Mock.reply 200 None (Py.dq "{'d':{'results':{'0':{'Url':'x'}}}}")) _
              (Py.JDict {[ Py.u "d" := Py.JDict {[ Py.u "results" :=
                 Py.JDict {[ Py.u "0" :=
                   Py.JDict {[ Py.u "Url" := Py.JUnicode (Py.u "x") ]} ]} ]} ]})
              (Py.JDict {[ Py.u "0" :=
                   Py.JDict {[ Py.u "Url" := Py.JUnicode (Py.u "x") ]} ]})
              _ _ _ _ _ _);
      [reflexivity | reflexivity | reflexivity | vm_compute; reflexivity
      | vm_compute; reflexivity | discriminate].
  - refine (results_not_a_list Bing Mock.runtime _ _ _
              (Mock.reply 200 None (Py.dq "{'d':{'results':''}}")) _
              (Py.JDict {[ Py.u "d" := Py.JDict {[ Py.u "results" := Py.JUnicode [] ]} ]})
              (Py.JUnicode []) _ _ _ _ _ _);
      [reflexivity | reflexivity | reflexivity | vm_compute; reflexivity
      | vm_compute; reflexivity | discriminate].
Defined.

(** The comprehension raises nothing but [KeyError] and [TypeError]. *)
Lemma results_of_no_query_error (c : engine_class) (res : Py.json) (msg : string) :
  results_of c res <> Raise (SearchQueryError msg).
Proof.
  assert (Hget : forall v k, getitem v k <> Raise (SearchQueryError msg)).
  { intros v k. destruct v as [| | | | | |d]; simpl; try discriminate.
    destruct (d !! Py.u k); discriminate. }
  assert (Hmap : forall k l,
    mapM (fun result => getitem result k) l <> Raise (SearchQueryError msg)).
  { intros k l. induction l as [|x l IH]; simpl; [discriminate|].
    pose proof (Hget x k) as Hx.
    destruct (getitem x k) as [y|e]; simpl; [|congruence].
    destruct (mapM (fun result => getitem result k) l); simpl; congruence. }
  assert (Hiter : forall v k,
    (rs ← iter v; mapM (fun result => getitem result k) rs)
      <> Raise (SearchQueryError msg)).
  { intros v k. destruct v; simpl; try discriminate; apply Hmap. }
  destruct c; unfold results_of.
  - pose proof (Hget res "d") as H1.
    destruct (getitem res "d") as [d|[]]; simpl; try congruence; try discriminate.
    pose proof (Hget d "results") as H2.
    destruct (getitem d "results") as [r|[]]; simpl; try congruence; try discriminate.
    apply Hiter.
  - pose proof (Hget res "bossresponse") as H1.
    destruct (getitem res "bossresponse") as [b|[]]; simpl;
      try congruence; try discriminate.
    pose proof (Hget b "web") as H2.
    destruct (getitem b "web") as [w|[]]; simpl; try congruence; try discriminate.
    pose proof (Hget w "results") as H3.
    destruct (getitem w "results") as [r|[]]; simpl; try congruence; try discriminate.
    apply Hiter.
Qed.

(** X7. Every [SearchQueryError] a search raises of its own starts with the
    name of the provider and [ Error: ]: provided neither the transport
    nor the decompressor raises a [SearchQueryError] itself, the message
    of one raised by [search] has that prefix. *)
Theorem query_errors_are_prefixed (c : engine_class) (rt : Runtime)
    (h : gmap nat opener) (self : engine) (query : Py.unicode) (msg : string) :
  (forall body m, gunzip rt body <> Raise (SearchQueryError m)) ->
  (forall url m, fetch h self url <> Raise (SearchQueryError m)) ->
  (forall url resp m, fetch h self url = Return resp ->
                      read resp <> Raise (SearchQueryError m)) ->
  search c rt h self query = Raise (SearchQueryError msg) ->
  String.prefix (name c +:+ " Error: ") msg = true.
Proof.
  intros Hgz Hopen Hread. rewrite search_request. unfold request, getitem_str.
  assert (Hh : forall url,
    handle c rt (fetch h self url) = Raise (SearchQueryError msg) ->
    String.prefix (name c +:+ " Error: ") msg = true).
  { intros url. unfold handle. pose proof (Hopen url) as Ho.
    pose proof (Hread url) as Hr.
    destruct (fetch h self url) as [resp|e]; simpl.
    - specialize (Hr resp). destruct (read resp) as [body|e]; simpl.
      + assert (Hd : forall m,
          (if is_gzip resp then gunzip rt body else Return body)
            <> Raise (SearchQueryError m)).
        { intros m. destruct (is_gzip resp); [apply Hgz|discriminate]. }
        destruct (if is_gzip resp then gunzip rt body else Return body)
          as [content|e]; simpl; [|intros [= ->]; exfalso; eapply Hd; reflexivity].
        unfold interpret. destruct (negb (getcode resp =? 200)%Z).
        * intros [= <-]. unfold status_error.
          change (" Error: got response code '") with (" Error: " +:+ "got response code '").
          rewrite <- !append_assoc, !append_assoc. rewrite <- (append_assoc (name c)).
          apply prefix_app.
        * destruct (Py.loads content) as [res|].
          -- intros H. exfalso. eapply results_of_no_query_error, H.
          -- intros [= <-]. unfold decode_error.
             change (" Error: JSON could not be decoded")
               with (" Error: " +:+ "JSON could not be decoded").
             rewrite <- append_assoc. apply prefix_app.
      + destruct e; simpl; intros [= <-];
          try (rewrite <- append_assoc; apply prefix_app).
        exfalso. eapply Hr; reflexivity.
    - destruct e; simpl; intros [= <-];
        try (rewrite <- append_assoc; apply prefix_app).
      exfalso. eapply Ho; reflexivity. }
  destruct c.
  - destruct (self_cred self !! "type"); simpl; [apply Hh|discriminate].
  - destruct (self_cred self !! "key"); simpl; [|discriminate].
    destruct (self_cred self !! "secret"); simpl; [apply Hh|discriminate].
Qed.

Lemma query_errors_are_prefixed_witness :
  String.prefix "Yahoo! BOSS Error: "
    ("Yahoo! BOSS Error: got response code '403':" +:+
       String Py.newline "forbidden'") = true.
Proof.
  refine (query_errors_are_prefixed YahooBOSS Mock.runtime
            (Mock.world 403 None "forbidden") Mock.yahoo_engine (Py.u "hello world")
            _ _ _ _ _).
  - intros body m. unfold Mock.runtime, gunzip, Mock.read_stored.
    repeat case_match; discriminate.
  - intros url m. discriminate.
  - intros url resp m [= <-]. discriminate.
  - vm_compute. reflexivity.
Defined.

(** ** More about construction *)

(** What the construction of a Bing engine gives when the key is there. *)
Lemma bing_init (cred : gmap string string) (l : nat) (h : gmap nat opener)
    (o : opener) (key : string) :
  cred !! "key" = Some key ->
  h !! l = Some o ->
  BingSearchEngine.__init__ cred l h =
    (Return {| self_cred := cred; self_opener := l |},
     <[l := {| addheaders := addheaders o ++ [authorization key]; open := open o |}]> h).
Proof.
  intros Hkey Hl.
  unfold BingSearchEngine.__init__, _BaseSearchEngine.__init__, getitem_str. simpl.
  rewrite Hkey, encode_base64_b64, (alter_present _ l h o Hl). reflexivity.
Qed.


(** X8. The engine that the construction of a Bing engine returns sends
    its requests with the [Authorization] header: its search calls [open]
    of the shared opener with the headers that were there followed by that
    header, for the URL of the query. *)
Theorem request_carries_authorization (rt : Runtime) (cred : gmap string string)
    (l : nat) (h h' : gmap nat opener) (o : opener) (key type : string)
    (self : engine) (query : Py.unicode) :
  cred !! "key" = Some key ->
  cred !! "type" = Some type ->
  h !! l = Some o ->
  BingSearchEngine.__init__ cred l h = (Return self, h') ->
  search Bing rt h' self query =
    handle Bing rt
      (open o (addheaders o ++ [("Authorization", "Basic " +:+ Py.b64 (key +:+ ":" +:+ key))])
            (bing_url rt type query)).
Proof.
  intros Hkey Htype Hl. rewrite (bing_init cred l h o key Hkey Hl).
  intros [= <- <-]. rewrite search_request. unfold request, getitem_str. simpl.
  rewrite Htype. simpl. unfold fetch. simpl.
  rewrite lookup_total_insert_eq. reflexivity.
Qed.

Lemma request_carries_authorization_witness :
  search Bing Mock.runtime
    (snd (BingSearchEngine.__init__ {[ "key" := "k3y"; "type" := "searchweb" ]} 0
            Scene.two_openers))
    (Scene.engine_at 0) (Py.u "hello world")
  = Return [Py.JUnicode (Py.u "User-agent: EarwigBot");
            Py.JUnicode (Py.u "Authorization: Basic azN5OmszeQ==")].
Proof.
  etransitivity.
  - refine (request_carries_authorization Mock.runtime
              {[ "key" := "k3y"; "type" := "searchweb" ]} 0 Scene.two_openers _
              Scene.echo_headers "k3y" "searchweb" (Scene.engine_at 0)
              (Py.u "hello world") _ _ _ _);
      [reflexivity | reflexivity | reflexivity | ].
    vm_compute. reflexivity.
  - vm_compute. reflexivity.
Defined.



(** X10. Two Bing engines constructed on one opener share its headers:
    after the second construction the opener holds both [Authorization]
    headers, the first first, and the requests of the first engine carry
    the header of the second one too. *)
Theorem shared_opener_accumulates (rt : Runtime) (cred1 cred2 : gmap string string)
    (l : nat) (h h1 h2 : gmap nat opener) (o : opener) (key1 key2 type1 : string)
    (e1 e2 : engine) (query : Py.unicode) :
  cred1 !! "key" = Some key1 ->
  cred1 !! "type" = Some type1 ->
  cred2 !! "key" = Some key2 ->
  h !! l = Some o ->
  BingSearchEngine.__init__ cred1 l h = (Return e1, h1) ->
  BingSearchEngine.__init__ cred2 l h1 = (Return e2, h2) ->
  h2 !! l = Some {| addheaders :=
                      addheaders o ++ [authorization key1; authorization key2];
                    open := open o |} /\
  search Bing rt h2 e1 query =
    handle Bing rt
      (open o (addheaders o ++ [authorization key1; authorization key2])
            (bing_url rt type1 query)).
Proof.
  intros Hk1 Ht1 Hk2 Hl. rewrite (bing_init cred1 l h o key1 Hk1 Hl).
  intros [= <- <-].
  rewrite (bing_init cred2 l _ _ key2 Hk2 (lookup_insert_eq _ _ _)).
  intros [= <- <-].
  change (addheaders o ++ [authorization key1; authorization key2])
    with (addheaders o ++ [authorization key1] ++ [authorization key2]).
  rewrite app_assoc. split.
  - rewrite insert_insert_eq. apply lookup_insert_eq.
  - rewrite search_request. unfold request, getitem_str. simpl. rewrite Ht1. simpl.
    unfold fetch. simpl. rewrite lookup_total_insert_eq. reflexivity.
Qed.

Lemma shared_opener_accumulates_witness :
  search Bing Mock.runtime
    (snd (BingSearchEngine.__init__ {[ "key" := "0ther"; "type" := "search" ]} 0
       (snd (BingSearchEngine.__init__ {[ "key" := "k3y"; "type" := "searchweb" ]} 0
               Scene.two_openers))))
    (Scene.engine_at 0) (Py.u "hello world")
  = Return [Py.JUnicode (Py.u "User-agent: EarwigBot");
            Py.JUnicode (Py.u "Authorization: Basic azN5OmszeQ==");
            Py.JUnicode (Py.u "Authorization: Basic MHRoZXI6MHRoZXI=")].
Proof.
  etransitivity.
  - refine (proj2 (shared_opener_accumulates Mock.runtime
              {[ "key" := "k3y"; "type" := "searchweb" ]}
              {[ "key" := "0ther"; "type" := "search" ]} 0 Scene.two_openers _ _
              Scene.echo_headers "k3y" "0ther" "searchweb" (Scene.engine_at 0)
              {| self_cred := {[ "key" := "0ther"; "type" := "search" ]};
                 self_opener := 0 |}
              (Py.u "hello world") _ _ _ _ _ _));
      [reflexivity | reflexivity | reflexivity | reflexivity | reflexivity | ].
    vm_compute. reflexivity.
  - vm_compute. reflexivity.
Defined.

(** X11. Without [key] in the credentials the construction of a Bing
    engine raises [KeyError] and has not touched the opener. *)
Theorem construction_without_key (cred : gmap string string) (l : nat)
    (h : gmap nat opener) :
  cred !! "key" = None ->
  BingSearchEngine.__init__ cred l h = (Raise (KeyError "key"), h).
Proof.
  intros Hkey.
  unfold BingSearchEngine.__init__, _BaseSearchEngine.__init__, getitem_str. simpl.
  rewrite Hkey. reflexivity.
Qed.

Lemma construction_without_key_witness :
  BingSearchEngine.__init__ {[ "type" := "searchweb" ]} 0 Scene.two_openers
  = (Raise (KeyError "key"), Scene.two_openers).
Proof.
  refine (construction_without_key {[ "type" := "searchweb" ]} 0 Scene.two_openers _).
  reflexivity.
Defined.

(** ** More about the encodings *)

Lemma unquote_escape (c : ascii) (x : string) :
  Url.unquote (escape c +:+ x) = String c (Url.unquote x).
Proof. destruct c as [[] [] [] [] [] [] [] []]; reflexivity. Qed.

Lemma unquote_percent_encode (s : string) : Url.unquote (percent_encode s) = s.
Proof.
  unfold percent_encode. induction s as [|c s IH]; [reflexivity|].
  simpl. rewrite unquote_escape, IH. reflexivity.
Qed.

(** X12. The encoding [enc] of [_build_url] loses nothing: [unquote] gives
    the UTF-8 bytes back, so two keys or values with different bytes never
    get the same encoding. *)
Theorem enc_round_trip (s t : Py.unicode) :
  Url.unquote (YahooBOSSSearchEngine.enc s) = Py.encode_utf8 s /\
  (YahooBOSSSearchEngine.enc s = YahooBOSSSearchEngine.enc t ->
   Py.encode_utf8 s = Py.encode_utf8 t).
Proof.
  assert (Hr : forall q, Url.unquote (YahooBOSSSearchEngine.enc q) = Py.encode_utf8 q).
  { intros q. unfold YahooBOSSSearchEngine.enc.
    rewrite quote_percent_encode. apply unquote_percent_encode. }
  split; [apply Hr|]. intros Heq. rewrite <- (Hr s), <- (Hr t), Heq. reflexivity.
Qed.

Lemma unquote_plus_escape (c : ascii) (x : string) :
  Url.unquote (Py.replace "+" " " (escape_plus c) +:+ x) = String c (Url.unquote x).
Proof. destruct c as [[] [] [] [] [] [] [] []]; reflexivity. Qed.

Lemma unquote_plus_form_encode (s : string) : Url.unquote_plus (form_encode s) = s.
Proof.
  unfold Url.unquote_plus, form_encode. induction s as [|c s IH]; [reflexivity|].
  simpl. rewrite replace_app, unquote_plus_escape, IH. reflexivity.
Qed.

(** X13. The form encoding that [urlencode] applies to the parameters of a
    Bing request loses nothing either: [unquote_plus] gives the parameter
    back, and different parameters have different encodings. *)
Theorem quote_plus_round_trip (s t : string) :
  Url.unquote_plus (Py.quote_plus s) = s /\
  (Py.quote_plus s = Py.quote_plus t -> s = t).
Proof.
  assert (Hr : forall x, Url.unquote_plus (Py.quote_plus x) = x).
  { intros x. rewrite quote_plus_form_encode. apply unquote_plus_form_encode. }
  split; [apply Hr|]. intros Heq. rewrite <- (Hr s), <- (Hr t), Heq. reflexivity.
Qed.

Example unquote_examples :
  Url.unquote "a%2fb%2Fc" = "a/b/c" /\ Url.unquote "%%41" = "%A" /\
  Url.unquote "%4%41%" = "%4A%" /\ Url.unquote_plus "a+b%2Bc" = "a b+c" /\
  split "&" "" = [""] /\ split "&" "a&&b" = ["a"; ""; "b"] /\
  parse_qs Url.unquote "q=%22a%20b%22&count=5" =
    [Some ("q", String Py.dquote ("a b" +:+ String Py.dquote "")); Some ("count", "5")].
Proof. vm_compute. repeat split; reflexivity. Qed.

Lemma split_free (c : ascii) (a : string) :
  Py.contains_char c a = false -> split c a = [a].
Proof.
  induction a as [|d a IH]; [reflexivity|]. cbn [Py.contains_char split].
  rewrite Ascii.eqb_sym. destruct (Ascii.eqb d c); [discriminate|].
  intros H. rewrite (IH H). reflexivity.
Qed.

Lemma split_app (c : ascii) (a b : string) :
  Py.contains_char c a = false ->
  split c (a +:+ String c b) = a :: split c b.
Proof.
  induction a as [|d a IH].
  - intros _. change ("" +:+ String c b) with (String c b). cbn [split].
    rewrite Ascii.eqb_refl. reflexivity.
  - cbn [Py.contains_char]. rewrite Ascii.eqb_sym, append_cons. cbn [split].
    destruct (Ascii.eqb d c); [discriminate|]. intros H. rewrite (IH H). reflexivity.
Qed.

(** Splitting a joined list of pieces without the separator gives the
    pieces back. *)
Lemma split_join (c : ascii) (l : list string) :
  l <> [] ->
  Forall (fun x => Py.contains_char c x = false) l ->
  split c (Py.join (String c "") l) = l.
Proof.
  intros Hne Hall. induction Hall as [|x l Hx Hall IH]; [contradiction|].
  destruct l as [|y l]; [apply split_free, Hx|].
  change (Py.join (String c "") (x :: y :: l))
    with (x +:+ String c (Py.join (String c "") (y :: l))).
  rewrite (split_app c x _ Hx), IH by discriminate. reflexivity.
Qed.

Lemma escape_no_separator (c : ascii) :
  Py.contains_char "&" (escape c) = false /\ Py.contains_char "=" (escape c) = false.
Proof. destruct c as [[] [] [] [] [] [] [] []]; split; reflexivity. Qed.

Lemma escape_plus_no_separator (c : ascii) :
  Py.contains_char "&" (escape_plus c) = false /\
  Py.contains_char "=" (escape_plus c) = false.
Proof. destruct c as [[] [] [] [] [] [] [] []]; split; reflexivity. Qed.

Lemma percent_encode_no_separator (s : string) :
  Py.contains_char "&" (percent_encode s) = false /\
  Py.contains_char "=" (percent_encode s) = false.
Proof.
  unfold percent_encode. induction s as [|c s [IH1 IH2]]; [split; reflexivity|].
  simpl. rewrite !contains_char_app, IH1, IH2.
  destruct (escape_no_separator c) as [-> ->]. split; reflexivity.
Qed.

Lemma form_encode_no_separator (s : string) :
  Py.contains_char "&" (form_encode s) = false /\
  Py.contains_char "=" (form_encode s) = false.
Proof.
  unfold form_encode. induction s as [|c s [IH1 IH2]]; [split; reflexivity|].
  simpl. rewrite !contains_char_app, IH1, IH2.
  destruct (escape_plus_no_separator c) as [-> ->]. split; reflexivity.
Qed.

(** The reading of the joined pairs [encode k = encode v], for an encoding
    without separators that [decode] inverts, gives the pairs back. *)
Lemma parse_qs_join (encode decode : string -> string) (items : list (string * string)) :
  (forall s, Py.contains_char "&" (encode s) = false /\
             Py.contains_char "=" (encode s) = false) ->
  (forall s, decode (encode s) = s) ->
  items <> [] ->
  parse_qs decode
    (Py.join "&" (map (fun kv => encode (fst kv) +:+ "=" +:+ encode (snd kv)) items))
  = map Some items.
Proof.
  intros Hsep Hdec Hne. unfold parse_qs. rewrite split_join.
  - rewrite map_map. apply map_ext. intros [k v]. unfold parse_pair. simpl.
    change (encode k +:+ "=" +:+ encode v) with (encode k +:+ String "=" (encode v)).
    rewrite (split_app "=" (encode k) (encode v) (proj2 (Hsep k))).
    rewrite (split_free "=" (encode v) (proj2 (Hsep v))), !Hdec. reflexivity.
  - destruct items; [contradiction|discriminate].
  - apply Forall_map, Forall_forall. intros [k v] _. simpl.
    rewrite !contains_char_app, (proj1 (Hsep k)), (proj1 (Hsep v)). reflexivity.
Qed.

(** X14. The URL of [_build_url] reads back: for a dict that is not empty,
    what follows [base] and the question mark splits at the ampersands
    and equals signs, and decodes with [unquote], to the pairs of the dict
    in UTF-8, each once, in the order of iteration. No key or value can
    add, split or hide a parameter. *)
Theorem build_url_reads_back (rt : Runtime) (base : string)
    (params : gmap Py.unicode Py.unicode) :
  params <> ∅ ->
  exists (items : list (Py.unicode * Py.unicode)) (qs : string),
    Permutation items (map_to_list params) /\
    YahooBOSSSearchEngine._build_url rt base params = base +:+ "?" +:+ qs /\
    parse_qs Url.unquote qs =
      map (fun kv => Some (Py.encode_utf8 (fst kv), Py.encode_utf8 (snd kv))) items.
Proof.
  intros Hne.
  exists (iteritems rt params),
    (Py.join "&" (map (fun kv => Py.join "=" [YahooBOSSSearchEngine.enc (fst kv);
                                             YahooBOSSSearchEngine.enc (snd kv)])
                      (iteritems rt params))).
  split; [apply iteritems_perm|]. split; [reflexivity|].
  assert (Hitems : iteritems rt params <> []).
  { intros Hnil. apply Hne, map_to_list_empty_iff, Permutation_nil.
    rewrite <- Hnil. apply iteritems_perm. }
  pose proof (parse_qs_join percent_encode Url.unquote
                (map (fun kv => (Py.encode_utf8 (fst kv), Py.encode_utf8 (snd kv)))
                     (iteritems rt params))
                percent_encode_no_separator unquote_percent_encode) as Hp.
  rewrite !map_map in Hp. simpl in Hp. rewrite <- Hp.
  - f_equal. f_equal. apply map_ext. intros [k v]. unfold YahooBOSSSearchEngine.enc.
    rewrite !quote_percent_encode. reflexivity.
  - destruct (iteritems rt params); [contradiction|discriminate].
Qed.

Lemma build_url_reads_back_witness :
  exists (items : list (Py.unicode * Py.unicode)) (qs : string),
    Permutation items
      (map_to_list ({[ Py.u "q" := Py.u "a&b=c d"; Py.u "count" := Py.u "5" ]}
                      : gmap Py.unicode Py.unicode)) /\
    YahooBOSSSearchEngine._build_url Mock.runtime "http://host/path"
      {[ Py.u "q" := Py.u "a&b=c d"; Py.u "count" := Py.u "5" ]}
      = "http://host/path" +:+ "?" +:+ qs /\
    parse_qs Url.unquote qs =
      map (fun kv => Some (Py.encode_utf8 (fst kv), Py.encode_utf8 (snd kv))) items.
Proof.
  refine (build_url_reads_back Mock.runtime "http://host/path"
            {[ Py.u "q" := Py.u "a&b=c d"; Py.u "count" := Py.u "5" ]} _).
  intros H. apply (f_equal (fun m => m !! Py.u "q")) in H. vm_compute in H.
  discriminate.
Defined.

(** X15. The URL of a Bing request reads back: what follows the question
    mark splits and decodes, with [unquote_plus], to the seven parameters,
    each once, with [Query] the quoted text of the query; whatever bytes
    the query has, it cannot add or change another parameter. *)
Theorem bing_url_reads_back (rt : Runtime) (type : string) (query : Py.unicode) :
  exists (items : list (string * string)) (qs : string),
    Permutation items (bing_items query) /\
    bing_url rt type query =
      "https://api.datamarket.azure.com/Bing/" +:+ bing_service type +:+ "/Web?" +:+ qs /\
    parse_qs Url.unquote_plus qs = map Some items.
Proof.
  exists (iteritems rt (list_to_map (bing_items query) : gmap string string)),
    (Py.urlencode (iteritems rt (list_to_map (bing_items query) : gmap string string))).
  pose proof (bing_items_perm rt query) as Hperm.
  split; [exact Hperm|]. split.
  - unfold bing_url. rewrite !append_assoc. reflexivity.
  - rewrite urlencode_form_encode.
    apply (parse_qs_join form_encode Url.unquote_plus).
    + apply form_encode_no_separator.
    + apply unquote_plus_form_encode.
    + intros Hnil. rewrite Hnil in Hperm. apply Permutation_nil in Hperm.
      discriminate.
Qed.

(** ** More about requests *)

(** X16. For every query, the Yahoo! BOSS engine hands the signer of oauth2
    the consumer made of [key] and [secret], the URL of the service and
    eight parameters, among them the result count 5, the consumer key, the
    nonce and timestamp of this call, and [q], the query in UTF-8 between
    double quotes with its own double quotes kept; it opens the URL that
    [_build_url] makes of the signed parameters. *)
Theorem yahoo_request (rt : Runtime) (h : gmap nat opener) (self : engine)
    (query : Py.unicode) (key secret : string) :
  self_cred self !! "key" = Some key ->
  self_cred self !! "secret" = Some secret ->
  exists params : gmap string string,
    params !! "q" =
      Some (String Py.dquote (Py.encode_utf8 query +:+ String Py.dquote "")) /\
    params !! "count" = Some "5" /\
    params !! "type" = Some "html,text,pdf" /\
    params !! "format" = Some "json" /\
    params !! "oauth_consumer_key" = Some key /\
    params !! "oauth_nonce" = Some (generate_nonce rt) /\
    params !! "oauth_timestamp" = Some (make_timestamp rt) /\
    params !! "oauth_version" = Some (OAUTH_VERSION rt) /\
    size params = 8 /\
    search YahooBOSS rt h self query =
      handle YahooBOSS rt
        (fetch h self
           (YahooBOSSSearchEngine._build_url rt "http://yboss.yahooapis.com/ysearch/web"
              (sign_request rt {| consumer_key := key; consumer_secret := secret |}
                 "http://yboss.yahooapis.com/ysearch/web" params))).
Proof.
  intros Hkey Hsecret. exists (list_to_map (yahoo_items rt key query)).
  do 8 (split; [reflexivity|]). split.
  - assert (Hnd : NoDup (yahoo_items rt key query).*1).
    { apply (bool_decide_unpack _). vm_compute. reflexivity. }
    rewrite <- length_map_to_list.
    rewrite (Permutation_length (map_to_list_to_map (yahoo_items rt key query) Hnd)).
    reflexivity.
  - rewrite search_request. unfold request, getitem_str. rewrite Hkey, Hsecret.
    reflexivity.
Qed.

Lemma yahoo_request_witness :
  exists params : gmap string string,
    params !! "q" =
      Some (String Py.dquote
              (Py.encode_utf8 (Py.u (Py.dq "say 'hello'")) +:+ String Py.dquote "")) /\
    params !! "count" = Some "5" /\
    params !! "type" = Some "html,text,pdf" /\
    params !! "format" = Some "json" /\
    params !! "oauth_consumer_key" = Some "k3y" /\
    params !! "oauth_nonce" = Some (generate_nonce Mock.runtime) /\
    params !! "oauth_timestamp" = Some (make_timestamp Mock.runtime) /\
    params !! "oauth_version" = Some (OAUTH_VERSION Mock.runtime) /\
    size params = 8 /\
    search YahooBOSS Mock.runtime (Mock.world 200 None Mock.yahoo_body) Mock.yahoo_engine
      (Py.u (Py.dq "say 'hello'")) =
      handle YahooBOSS Mock.runtime
        (fetch (Mock.world 200 None Mock.yahoo_body) Mock.yahoo_engine
           (YahooBOSSSearchEngine._build_url Mock.runtime
              "http://yboss.yahooapis.com/ysearch/web"
              (sign_request Mock.runtime
                 {| consumer_key := "k3y"; consumer_secret := "s3cret" |}
                 "http://yboss.yahooapis.com/ysearch/web" params))).
Proof.
  refine (yahoo_request Mock.runtime (Mock.world 200 None Mock.yahoo_body)
            Mock.yahoo_engine (Py.u (Py.dq "say 'hello'")) "k3y" "s3cret" _ _);
    reflexivity.
Defined.

Example yahoo_url_example :
  yahoo_url Mock.runtime "k3y" "s3cret" (Py.u (Py.dq "say 'hello'")) =
  "http://yboss.yahooapis.com/ysearch/web?oauth_consumer_key=k3y&count=5&format=json&q=%22say%20%22hello%22%22&oauth_timestamp=1420070400&oauth_version=1.0&oauth_signature=c2lnbmF0dXJl&type=html%2Ctext%2Cpdf&oauth_nonce=81726354&oauth_signature_method=HMAC-SHA1".
Proof. vm_compute. reflexivity. Qed.

(** ** The IRC frontend *)

Section FrontendFacts.

Context {V data : Type}.
Context (Data : V -> list string -> string -> outcome data).
Context (is_private : data -> bool).
Context (str : V -> string).
Context (elements : V -> outcome (list V)).

Abbreviation process := (Frontend._process_message Data is_private str elements).

Lemma joins_only (l : list V) :
  Frontend.for_each (fun chan => Frontend.act (data := data) (Frontend.Join chan)) l
  = (map Frontend.Join l, Return tt).
Proof.
  induction l as [|x l IH]; [reflexivity|]. simpl. rewrite IH. reflexivity.
Qed.

Lemma joins_projections (l : list V) :
  Frontend.hooks (map (Frontend.Join (data := data)) l) = [] /\
  Frontend.said (map (Frontend.Join (data := data)) l) = [] /\
  Frontend.joined (map (Frontend.Join (data := data)) l) = l.
Proof.
  unfold Frontend.hooks, Frontend.said, Frontend.joined.
  induction l as [|x l (IH1 & IH2 & IH3)]; [split; [|split]; reflexivity|].
  cbn in *. split; [exact IH1|]. split; [exact IH2|]. congruence.
Qed.

(** What the branch for the welcome message does. *)
Lemma process_welcome (irc : gmap string (gmap string V)) (nick : V)
    (line : list string) :
  line !! 1 = Some "376" ->
  process irc nick line =
    let ident := match Frontend.nickserv irc with
                 | Some up => let '(t, m, hl) := Frontend.identify str up in
                              [Frontend.Say t m hl]
                 | None => []
                 end in
    match irc !! "frontend" with
    | None => (ident, Raise (KeyError "frontend"))
    | Some cf =>
        match cf !! "channels" with
        | None => (ident, Raise (KeyError "channels"))
        | Some chans =>
            match elements chans with
            | Raise e => (ident, Raise e)
            | Return l => (ident ++ map Frontend.Join l, Return tt)
            end
        end
    end.
Proof.
  intros Hline. unfold Frontend._process_message, Frontend.nickserv, Frontend.item.
  rewrite Hline. simpl.
  destruct (irc !! "frontend") as [cf|]; simpl; [|reflexivity].
  destruct (cf !! "channels") as [chans|]; simpl.
  - destruct (elements chans) as [l|e]; simpl.
    + rewrite joins_only.
      destruct (cf !! "nickservUsername"), (cf !! "nickservPassword"); simpl;
        rewrite ?app_nil_r; reflexivity.
    + destruct (cf !! "nickservUsername"), (cf !! "nickservPassword"); reflexivity.
  - destruct (cf !! "nickservUsername"), (cf !! "nickservPassword"); reflexivity.
Qed.

Lemma welcome_projections (irc : gmap string (gmap string V)) (nick : V)
    (line : list string) :
  line !! 1 = Some "376" ->
  Frontend.hooks (fst (process irc nick line)) = [] /\
  Frontend.said (fst (process irc nick line)) =
    match Frontend.nickserv irc with
    | Some up => [Frontend.identify str up]
    | None => []
    end /\
  Frontend.joined (fst (process irc nick line)) =
    match Frontend.channels irc with
    | Some chans => match elements chans with Return l => l | Raise _ => [] end
    | None => []
    end.
Proof.
  intros Hline. rewrite (process_welcome irc nick line Hline).
  unfold Frontend.channels.
  assert (Hident : forall l,
    let ident := match Frontend.nickserv irc with
                 | Some up => let '(t, m, hl) := Frontend.identify str up in
                              [Frontend.Say (V := V) (data := data) t m hl]
                 | None => []
                 end in
    Frontend.hooks (ident ++ map Frontend.Join l) = [] /\
    Frontend.said (ident ++ map Frontend.Join l) =
      match Frontend.nickserv irc with
      | Some up => [Frontend.identify str up]
      | None => []
      end /\
    Frontend.joined (ident ++ map Frontend.Join l) = l).
  { intros l. destruct (joins_projections l) as (H1 & H2 & H3).
    unfold Frontend.hooks, Frontend.said, Frontend.joined in *.
    destruct (Frontend.nickserv irc) as [[u p]|]; cbn; rewrite ?H1, ?H2, ?H3;
      split; [|split| |split]; reflexivity. }
  pose proof (Hident []) as Hnil. cbn zeta in Hnil, Hident.
  rewrite app_nil_r in Hnil.
  destruct (irc !! "frontend") as [cf|]; cbn zeta; cbn [fst]; [|exact Hnil].
  destruct (cf !! "channels") as [chans|]; [|exact Hnil].
  destruct (elements chans) as [l|e]; cbn [fst]; [apply Hident|exact Hnil].
Qed.

(** X17. A line with fewer than two fields raises [IndexError] before
    anything is done. *)
Theorem short_line_raises (irc : gmap string (gmap string V)) (nick : V)
    (line : list string) :
  length line < 2 ->
  process irc nick line = ([], Raise Frontend.IndexError).
Proof.
  intros Hlen. unfold Frontend._process_message.
  rewrite (proj2 (lookup_ge_None line 1)) by lia. reflexivity.
Qed.

(** X18. The hooks a message triggers: none, or [join] alone, or
    [msg_private] or [msg_public] followed by [msg]. The hook [msg] is
    called exactly for a [PRIVMSG] whose [Data] could be built, and a
    message that triggers a hook says nothing, joins nothing and ends
    without error. *)
Theorem hook_discipline (irc : gmap string (gmap string V)) (nick : V)
    (line : list string) :
  let t := fst (process irc nick line) in
  (Frontend.hooks t = [] \/ Frontend.hooks t = ["join"] \/
   Frontend.hooks t = ["msg_private"; "msg"] \/
   Frontend.hooks t = ["msg_public"; "msg"]) /\
  (Frontend.hooks t <> [] ->
   Frontend.said t = [] /\ Frontend.joined t = [] /\
   snd (process irc nick line) = Return tt) /\
  (In "msg" (Frontend.hooks t) <->
   line !! 1 = Some "PRIVMSG" /\ exists d, Data nick line "PRIVMSG" = Return d).
Proof.
  cbn zeta. destruct (line !! 1) as [field|] eqn:Hline.
  2:{ unfold Frontend._process_message. rewrite Hline. cbn.
      split; [auto|]. split; [congruence|]. split; [intros []|intros [? _]; discriminate]. }
  destruct (String.eqb_spec field "JOIN") as [->|Hj].
  { unfold Frontend._process_message. rewrite Hline. cbn.
    destruct (Data nick line "JOIN") as [d|e]; cbn.
    - split; [auto|]. split; [auto|].
      split; [intros [?|[]]; discriminate|intros [? _]; discriminate].
    - split; [auto|]. split; [congruence|].
      split; [intros []|intros [? _]; discriminate]. }
  destruct (String.eqb_spec field "PRIVMSG") as [->|Hp].
  { unfold Frontend._process_message. rewrite Hline. cbn.
    destruct (Data nick line "PRIVMSG") as [d|e]; cbn.
    - destruct (is_private d); cbn;
        (split; [auto|]; split; [auto|];
         split; [intros _; split; [reflexivity|eauto]|intros _; right; left; reflexivity]).
    - split; [auto|]. split; [congruence|].
      split; [intros []|intros [_ [d Hd]]; discriminate]. }
  destruct (String.eqb_spec field "376") as [->|Hw].
  { destruct (welcome_projections irc nick line Hline) as (Hh & _ & _).
    rewrite Hh. split; [auto|]. split; [congruence|].
    split; [intros []|intros [? _]; discriminate]. }
  unfold Frontend._process_message. rewrite Hline. cbn.
  rewrite (proj2 (String.eqb_neq _ _) Hj), (proj2 (String.eqb_neq _ _) Hp),
    (proj2 (String.eqb_neq _ _) Hw). cbn.
  split; [auto|]. split; [congruence|].
  split; [intros []|intros [[= ->] _]; contradiction].
Qed.

(** X19. The frontend speaks only to identify: what a message makes it
    say is the one line [IDENTIFY username password] to NickServ, kept out
    of the log, exactly when the message is the welcome [376] and both
    credentials are in the configuration; with one of them missing it says
    nothing. It joins channels for no other message than [376]. *)
Theorem identify_discipline (irc : gmap string (gmap string V)) (nick : V)
    (line : list string) :
  let t := fst (process irc nick line) in
  Frontend.said t =
    match line !! 1, Frontend.nickserv irc with
    | Some field, Some up =>
        if String.eqb field "376" then [Frontend.identify str up] else []
    | _, _ => []
    end /\
  (Frontend.joined t <> [] -> line !! 1 = Some "376").
Proof.
  cbn zeta. destruct (line !! 1) as [field|] eqn:Hline.
  2:{ unfold Frontend._process_message. rewrite Hline. cbn.
      split; [reflexivity|congruence]. }
  destruct (String.eqb_spec field "376") as [->|Hw].
  { destruct (welcome_projections irc nick line Hline) as (_ & Hs & _).
    rewrite Hs. split; [|reflexivity].
    destruct (Frontend.nickserv irc); reflexivity. }
  assert (Hnone : Frontend.said (fst (process irc nick line)) = [] /\
                  Frontend.joined (fst (process irc nick line)) = []).
  { unfold Frontend._process_message. rewrite Hline. cbn.
    rewrite (proj2 (String.eqb_neq _ _) Hw).
    destruct (String.eqb field "JOIN").
    - destruct (Data nick line "JOIN"); cbn; split; reflexivity.
    - destruct (String.eqb field "PRIVMSG"); [|split; reflexivity].
      destruct (Data nick line "PRIVMSG") as [d|e]; cbn; [|split; reflexivity].
      destruct (is_private d); cbn; split; reflexivity. }
  destruct Hnone as [-> ->]. split; [|congruence].
  destruct (Frontend.nickserv irc); reflexivity.
Qed.

(** X20. On the welcome message, with the channels in the configuration,
    the frontend identifies first, if it has the credentials, and then
    joins every channel once, in the order of the configuration, and ends
    without error. *)
Theorem welcome_joins_channels (irc : gmap string (gmap string V)) (nick : V)
    (line : list string) (chans : V) (l : list V) :
  line !! 1 = Some "376" ->
  Frontend.channels irc = Some chans ->
  elements chans = Return l ->
  exists ident,
    process irc nick line = (ident ++ map Frontend.Join l, Return tt) /\
    ident = match Frontend.nickserv irc with
            | Some up => [Frontend.Say "NickServ"
                            ("IDENTIFY " +:+ str (fst up) +:+ " " +:+ str (snd up)) true]
            | None => []
            end /\
    Frontend.joined (fst (process irc nick line)) = l.
Proof.
  intros Hline Hch Hel.
  pose proof (welcome_projections irc nick line Hline) as (_ & _ & Hj).
  rewrite Hch, Hel in Hj. rewrite (process_welcome irc nick line Hline) in *.
  unfold Frontend.channels in Hch.
  destruct (irc !! "frontend") as [cf|]; [|discriminate].
  rewrite Hch, Hel in *. eexists. split; [reflexivity|]. split; [|exact Hj].
  destruct (Frontend.nickserv irc) as [[u p]|]; reflexivity.
Qed.

(** X21. On the welcome message, without the channels in the
    configuration, the frontend raises [KeyError] and joins nothing, but
    it has already identified to NickServ when it has the credentials. *)
Theorem welcome_without_channels (irc : gmap string (gmap string V)) (nick : V)
    (line : list string) :
  line !! 1 = Some "376" ->
  Frontend.channels irc = None ->
  snd (process irc nick line) =
    Raise (KeyError (match irc !! "frontend" with
                     | Some _ => "channels"
                     | None => "frontend"
                     end)) /\
  Frontend.joined (fst (process irc nick line)) = [] /\
  Frontend.said (fst (process irc nick line)) =
    match Frontend.nickserv irc with
    | Some up => [Frontend.identify str up]
    | None => []
    end.
Proof.
  intros Hline Hch.
  pose proof (welcome_projections irc nick line Hline) as (_ & Hs & Hj).
  rewrite Hch in Hj. split; [|split; assumption].
  rewrite (process_welcome irc nick line Hline). unfold Frontend.channels in Hch.
  destruct (irc !! "frontend") as [cf|]; cbn; [rewrite Hch|]; reflexivity.
Qed.

(** X22. The construction of the frontend reads [host], [port], [nick],
    [ident] and [realname] before it does anything to the connection: with
    one of them missing it raises [KeyError] for the first missing one and
    has neither initialised nor opened the connection; with all of them it
    initialises the connection with their values and then connects. *)
Theorem frontend_init (irc : gmap string (gmap string V)) (cf : gmap string V) :
  irc !! "frontend" = Some cf ->
  match Frontend.first_unset cf with
  | Some k =>
      Frontend.__init__ (data := data) irc
      = ([Frontend.GetChild "frontend"], Raise (KeyError k))
  | None =>
      exists host port nick ident realname,
        cf !! "host" = Some host /\ cf !! "port" = Some port /\
        cf !! "nick" = Some nick /\ cf !! "ident" = Some ident /\
        cf !! "realname" = Some realname /\
        Frontend.__init__ (data := data) irc
        = ([Frontend.GetChild "frontend";
            Frontend.BaseInit host port nick ident realname;
            Frontend.Connect], Return tt)
  end.
Proof.
  intros Hcf. unfold Frontend.first_unset, Frontend.__init__, Frontend.item.
  rewrite Hcf. cbn.
  destruct (cf !! "host") as [host|]; cbn; [|reflexivity].
  destruct (cf !! "port") as [port|]; cbn; [|reflexivity].
  destruct (cf !! "nick") as [nick|]; cbn; [|reflexivity].
  destruct (cf !! "ident") as [ident|]; cbn; [|reflexivity].
  destruct (cf !! "realname") as [realname|]; cbn; [|reflexivity].
  exists host, port, nick, ident, realname. repeat (split; [reflexivity|]).
  reflexivity.
Qed.

End FrontendFacts.

Lemma short_line_raises_witness :
  Frontend._process_message Frontend.Sample.parse Frontend.Sample.msg_private
    Frontend.Sample.text Frontend.Sample.items
    (Frontend.Sample.irc Frontend.Sample.full) (Frontend.Sample.Text "EarwigBot")
    ["PING"]
  = ([], Raise Frontend.IndexError).
Proof.
  refine (short_line_raises Frontend.Sample.parse Frontend.Sample.msg_private
            Frontend.Sample.text Frontend.Sample.items _ _ ["PING"] _).
  simpl. lia.
Defined.

Example process_message_examples :
  Frontend._process_message Frontend.Sample.parse Frontend.Sample.msg_private
    Frontend.Sample.text Frontend.Sample.items
    (Frontend.Sample.irc Frontend.Sample.full) (Frontend.Sample.Text "EarwigBot")
    [":nick!user@host"; "PRIVMSG"; "#wikipedia-en"; ":!help"]
  = ([Frontend.CommandCall "msg_public"
        {| Frontend.Sample.msg_line := [":nick!user@host"; "PRIVMSG"; "#wikipedia-en"; ":!help"];
           Frontend.Sample.msg_type := "PRIVMSG";
           Frontend.Sample.msg_private := false |};
      Frontend.CommandCall "msg"
        {| Frontend.Sample.msg_line := [":nick!user@host"; "PRIVMSG"; "#wikipedia-en"; ":!help"];
           Frontend.Sample.msg_type := "PRIVMSG";
           Frontend.Sample.msg_private := false |}], Return tt) /\
  Frontend._process_message Frontend.Sample.parse Frontend.Sample.msg_private
    Frontend.Sample.text Frontend.Sample.items
    (Frontend.Sample.irc Frontend.Sample.full) (Frontend.Sample.Text "EarwigBot")
    [":server"; "NOTICE"; "*"; ":hello"]
  = ([], Return tt) /\
  Frontend._process_message Frontend.Sample.parse Frontend.Sample.msg_private
    Frontend.Sample.text Frontend.Sample.items
    (Frontend.Sample.irc Frontend.Sample.full) (Frontend.Sample.Text "EarwigBot")
    [":nick!user@host"; "PRIVMSG"]
  = ([], Raise Frontend.IndexError).
Proof. vm_compute. repeat split; reflexivity. Qed.

Lemma welcome_joins_channels_witness :
  exists ident,
    Frontend._process_message Frontend.Sample.parse Frontend.Sample.msg_private
      Frontend.Sample.text Frontend.Sample.items
      (Frontend.Sample.irc Frontend.Sample.full) (Frontend.Sample.Text "EarwigBot")
      [":server"; "376"; "EarwigBot"; ":End of /MOTD command."]
    = (ident ++ map Frontend.Join
                  [Frontend.Sample.Text "##earwigbot"; Frontend.Sample.Text "#wikipedia-en"],
       Return tt) /\
    ident = match Frontend.nickserv (Frontend.Sample.irc Frontend.Sample.full) with
            | Some up =>
                [Frontend.Say "NickServ"
                   ("IDENTIFY " +:+ Frontend.Sample.text (fst up) +:+ " " +:+
                    Frontend.Sample.text (snd up)) true]
            | None => []
            end /\
    Frontend.joined
      (fst (Frontend._process_message Frontend.Sample.parse Frontend.Sample.msg_private
              Frontend.Sample.text Frontend.Sample.items
              (Frontend.Sample.irc Frontend.Sample.full) (Frontend.Sample.Text "EarwigBot")
              [":server"; "376"; "EarwigBot"; ":End of /MOTD command."]))
    = [Frontend.Sample.Text "##earwigbot"; Frontend.Sample.Text "#wikipedia-en"].
Proof.
  refine (welcome_joins_channels Frontend.Sample.parse Frontend.Sample.msg_private
            Frontend.Sample.text Frontend.Sample.items
            (Frontend.Sample.irc Frontend.Sample.full) (Frontend.Sample.Text "EarwigBot")
            [":server"; "376"; "EarwigBot"; ":End of /MOTD command."]
            (Frontend.Sample.Items
               [Frontend.Sample.Text "##earwigbot"; Frontend.Sample.Text "#wikipedia-en"])
            _ _ _ _);
    [reflexivity | vm_compute; reflexivity | reflexivity].
Defined.

Lemma welcome_without_channels_witness :
  snd (Frontend._process_message Frontend.Sample.parse Frontend.Sample.msg_private
         Frontend.Sample.text Frontend.Sample.items
         (Frontend.Sample.irc (delete "channels" Frontend.Sample.full))
         (Frontend.Sample.Text "EarwigBot") [":server"; "376"])
  = Raise (KeyError
             (match Frontend.Sample.irc (delete "channels" Frontend.Sample.full)
                      !! "frontend" with
              | Some _ => "channels"
              | None => "frontend"
              end)) /\
  Frontend.joined
    (fst (Frontend._process_message Frontend.Sample.parse Frontend.Sample.msg_private
            Frontend.Sample.text Frontend.Sample.items
            (Frontend.Sample.irc (delete "channels" Frontend.Sample.full))
            (Frontend.Sample.Text "EarwigBot") [":server"; "376"])) = [] /\
  Frontend.said
    (fst (Frontend._process_message Frontend.Sample.parse Frontend.Sample.msg_private
            Frontend.Sample.text Frontend.Sample.items
            (Frontend.Sample.irc (delete "channels" Frontend.Sample.full))
            (Frontend.Sample.Text "EarwigBot") [":server"; "376"]))
  = match Frontend.nickserv (Frontend.Sample.irc (delete "channels" Frontend.Sample.full)) with
    | Some up => [Frontend.identify Frontend.Sample.text up]
    | None => []
    end.
Proof.
  refine (welcome_without_channels Frontend.Sample.parse Frontend.Sample.msg_private
            Frontend.Sample.text Frontend.Sample.items
            (Frontend.Sample.irc (delete "channels" Frontend.Sample.full))
            (Frontend.Sample.Text "EarwigBot") [":server"; "376"] _ _);
    [reflexivity | vm_compute; reflexivity].
Defined.

Example welcome_without_channels_run :
  Frontend._process_message Frontend.Sample.parse Frontend.Sample.msg_private
    Frontend.Sample.text Frontend.Sample.items
    (Frontend.Sample.irc (delete "channels" Frontend.Sample.full))
    (Frontend.Sample.Text "EarwigBot") [":server"; "376"]
  = ([Frontend.Say "NickServ" "IDENTIFY EarwigBot hunter2" true],
     Raise (KeyError "channels")) /\
  Frontend._process_message Frontend.Sample.parse Frontend.Sample.msg_private
    Frontend.Sample.text Frontend.Sample.items
    (Frontend.Sample.irc (delete "nickservPassword" Frontend.Sample.full))
    (Frontend.Sample.Text "EarwigBot") [":server"; "376"]
  = ([Frontend.Join (Frontend.Sample.Text "##earwigbot");
      Frontend.Join (Frontend.Sample.Text "#wikipedia-en")], Return tt).
Proof. vm_compute. split; reflexivity. Qed.

Lemma frontend_init_witness :
  Frontend.__init__ (data := Frontend.Sample.message)
    (Frontend.Sample.irc (delete "nick" (delete "port" Frontend.Sample.full)))
  = ([Frontend.GetChild "frontend"], Raise (KeyError "port")).
Proof.
  refine (frontend_init (data := Frontend.Sample.message)
            (Frontend.Sample.irc (delete "nick" (delete "port" Frontend.Sample.full)))
            (delete "nick" (delete "port" Frontend.Sample.full)) _).
  reflexivity.
Defined.

Example frontend_init_run :
  Frontend.__init__ (data := Frontend.Sample.message)
    (Frontend.Sample.irc Frontend.Sample.full)
  = ([Frontend.GetChild "frontend";
      Frontend.BaseInit (Frontend.Sample.Text "irc.freenode.net") (Frontend.Sample.Text "6667")
        (Frontend.Sample.Text "EarwigBot") (Frontend.Sample.Text "earwigbot")
        (Frontend.Sample.Text "[[w:en:User:EarwigBot]]");
      Frontend.Connect], Return tt).
Proof. vm_compute. reflexivity. Qed.
